(** * City Data Reporter (reporter.py): a shallow embedding and its properties

    The program prompts for a city, fetches the current weather over HTTP,
    prints a summary, appends a row to a CSV file and reads the file back.

    Modelling conventions.
    - A Python [str] is the [string] of its UTF-8 bytes; a file's content
      is the [string] of its bytes.  Whitespace is that of ASCII.  Case is
      that of the ASCII letters and of the letters of Latin-1 Supplement,
      with the letters their case mappings lead to.  Every other character
      (the dash, the degree sign) is carried along as uncased text that is
      not whitespace.  Python knows more whitespace (U+00A0, U+3000 and
      others) and more letters than these, so the statements that depend
      on the classes of characters are made for texts of ASCII characters.
    - A decoded JSON value is a [pyval]; a Python [float] is a binary64
      number ([spec_float] at precision 53); a [dict] with string keys is a
      [gmap string].
    - Effects are threaded through a [world]: the environment variable, the
      lines typed on standard input, what was written to standard output,
      the reply of the weather service and a flat store of files.
      Exceptions are values of [exn]; a computation returns [Ret] or [Raise]
      together with the world it leaves behind. *)

From Stdlib Require Import ZArith String Ascii List SpecFloat Lia.
From stdpp Require Import gmap strings list pretty.

Set Warnings "-register-all".

Local Open Scope string_scope.
Local Open Scope list_scope.

(** ** Characters and strings *)

Module Str.

Definition LF : ascii := "010"%char.
Definition CR : ascii := "013"%char.
Definition DQUOTE : ascii := "034"%char.
Definition COMMA : ascii := ","%char.
Definition SPACE : ascii := " "%char.

Definition nl : string := String LF "".
Definition crlf : string := String CR (String LF "").

(** [str.isspace] on an ASCII character: TAB..CR, FS..US and the space.
    The whitespace of Python beyond ASCII (U+0085, U+00A0, U+1680,
    U+2000..U+200A, U+2028, U+2029, U+202F, U+205F, U+3000) is not
    modelled. *)
Definition isspace (c : ascii) : bool :=
  let n := nat_of_ascii c in
  (Nat.leb 9 n && Nat.leb n 13) || (Nat.leb 28 n && Nat.leb n 32).

(** The case of one byte: that of the ASCII letters. *)
Definition isupper (c : ascii) : bool :=
  let n := nat_of_ascii c in Nat.leb 65 n && Nat.leb n 90.

Definition islower (c : ascii) : bool :=
  let n := nat_of_ascii c in Nat.leb 97 n && Nat.leb n 122.

Definition iscased (c : ascii) : bool := isupper c || islower c.

Definition upper (c : ascii) : ascii :=
  if islower c then ascii_of_nat (nat_of_ascii c - 32) else c.

Definition lower (c : ascii) : ascii :=
  if isupper c then ascii_of_nat (nat_of_ascii c + 32) else c.

(** [bool(s)] for a string: non-empty. *)
Definition nonempty (s : string) : bool :=
  match s with "" => false | String _ _ => true end.

Fixpoint lstrip (s : string) : string :=
  match s with
  | "" => ""
  | String c s' => if isspace c then lstrip s' else s
  end.

Fixpoint rstrip (s : string) : string :=
  match s with
  | "" => ""
  | String c s' =>
      match rstrip s' with
      | "" => if isspace c then "" else String c ""
      | t => String c t
      end
  end.

(** [s.strip()] *)
Definition strip (s : string) : string := rstrip (lstrip s).

Definition starts_with_space (s : string) : bool :=
  match s with "" => false | String c _ => isspace c end.

(** [s.split()]: the maximal runs of non-space characters, in order. *)
Fixpoint split (s : string) : list string :=
  match s with
  | "" => []
  | String c s' =>
      if isspace c then split s'
      else if starts_with_space s' then String c "" :: split s'
      else match split s' with
           | [] => [String c ""]
           | w :: ws => String c w :: ws
           end
  end.

(** [sep.join(l)] *)
Fixpoint join (sep : string) (l : list string) : string :=
  match l with
  | [] => ""
  | [w] => w
  | w :: ws => w +:+ sep +:+ join sep ws
  end.

(** An ASCII character, and a text of ASCII characters. *)
Definition is_ascii_char (c : ascii) : bool := Nat.ltb (nat_of_ascii c) 128.

Fixpoint is_ascii (s : string) : bool :=
  match s with
  | "" => true
  | String c s' => is_ascii_char c && is_ascii s'
  end.

(** Letters beyond ASCII.  In UTF-8 a letter of Latin-1 Supplement is two
    bytes: 195 and a second byte for U+00C0..U+00FF, 194 and a second byte
    for U+00AA, U+00B5 and U+00BA.  With them come the letters their case
    mappings lead to: the capital of U+00FF (U+0178: 197, 184), and the
    capital and the small letter (U+039C, U+03BC: 206 and 156, 188) that
    the micro sign U+00B5 is mapped to. *)
Inductive letter_case := Upper | Lower.

(** The case of the letter of the two bytes [c], [d], with its partner:
    the lower-case form of an upper-case letter, the title-case form of a
    lower-case letter (the letter itself when it has none). *)
Definition letter2 (c d : ascii) : option (letter_case * string) :=
  let n := nat_of_ascii d in
  if Ascii.eqb c "195" then
    if Nat.leb 128 n && Nat.leb n 158 && negb (Nat.eqb n 151)
    then Some (Upper, String c (String (ascii_of_nat (n + 32)) ""))
    else if Nat.eqb n 159 then Some (Lower, "Ss")
    else if Nat.leb 160 n && Nat.leb n 190 && negb (Nat.eqb n 183)
    then Some (Lower, String c (String (ascii_of_nat (n - 32)) ""))
    else if Nat.eqb n 191 then Some (Lower, String "197" (String "184" ""))
    else None
  else if Ascii.eqb c "194" then
    if Nat.eqb n 170 || Nat.eqb n 186 then Some (Lower, String c (String d ""))
    else if Nat.eqb n 181 then Some (Lower, String "206" (String "156" ""))
    else None
  else if Ascii.eqb c "197" then
    if Nat.eqb n 184 then Some (Upper, String "195" (String "191" "")) else None
  else if Ascii.eqb c "206" then
    if Nat.eqb n 156 then Some (Upper, String "206" (String "188" ""))
    else if Nat.eqb n 188 then Some (Lower, String "206" (String "156" ""))
    else None
  else None.

(** [s.title()]: a letter is given its title-case form when the character
    before it is uncased (or there is none) and its lower-case form
    otherwise; other characters are kept. *)
Fixpoint title_from (previous_is_cased : bool) (s : string) : string :=
  match s with
  | "" => ""
  | String c s' =>
      match s' with
      | "" => String (if previous_is_cased then lower c else upper c) ""
      | String d s'' =>
          match letter2 c d with
          | Some (Upper, lowered) =>
              (if previous_is_cased then lowered else String c (String d ""))
              +:+ title_from true s''
          | Some (Lower, titled) =>
              (if previous_is_cased then String c (String d "") else titled)
              +:+ title_from true s''
          | None =>
              String (if previous_is_cased then lower c else upper c)
                     (title_from (iscased c) s')
          end
      end
  end.

Definition title (s : string) : string := title_from false s.

(** Observations on strings used in the statements. *)

Fixpoint all_space (s : string) : bool :=
  match s with
  | "" => true
  | String c s' => isspace c && all_space s'
  end.

Fixpoint ends_with_space (s : string) : bool :=
  match s with
  | "" => false
  | String c "" => isspace c
  | String _ s' => ends_with_space s'
  end.

(** Two adjacent whitespace characters somewhere in [s]. *)
Fixpoint has_space_run (s : string) : bool :=
  match s with
  | "" => false
  | String c s' => (isspace c && starts_with_space s') || has_space_run s'
  end.

(** Every whitespace character of [s] is the plain space. *)
Fixpoint spaces_are_blank (s : string) : bool :=
  match s with
  | "" => true
  | String c s' =>
      (negb (isspace c) || bool_decide (c = SPACE)) && spaces_are_blank s'
  end.

(** The scan of [str.istitle]: an upper-case letter only after an uncased
    character, a lower-case letter only after a cased one. *)
Fixpoint titlecased_from (previous_is_cased : bool) (s : string) : bool :=
  match s with
  | "" => true
  | String c s' =>
      match s' with
      | "" =>
          if isupper c then negb previous_is_cased
          else if islower c then previous_is_cased
          else true
      | String d s'' =>
          match letter2 c d with
          | Some (Upper, _) => negb previous_is_cased && titlecased_from true s''
          | Some (Lower, _) => previous_is_cased && titlecased_from true s''
          | None =>
              if isupper c then negb previous_is_cased && titlecased_from true s'
              else if islower c then previous_is_cased && titlecased_from true s'
              else titlecased_from false s'
          end
      end
  end.

Definition titlecased (s : string) : bool := titlecased_from false s.

Fixpoint no_space (s : string) : bool :=
  match s with
  | "" => true
  | String c s' => negb (isspace c) && no_space s'
  end.

(** A word: at least one character, none of them whitespace. *)
Definition word (s : string) : Prop := nonempty s = true /\ no_space s = true.

End Str.

(** ** Python values *)

(** Python's binary64 floats. *)
Definition prec : Z := 53.
Definition emax : Z := 1024.

(** The values [json] decoding produces: [None], booleans, integers,
    floats, strings, lists and dictionaries with string keys. *)
Inductive pyval :=
  | PNone
  | PBool (b : bool)
  | PInt (z : Z)
  | PFloat (f : spec_float)
  | PStr (s : string)
  | PList (l : list pyval)
  | PDict (d : gmap string pyval).

(** The exceptions the program can meet.  A [ValueError] carries its text,
    which [main] prints; [SystemExit] carries the exit code. *)
Inductive exn :=
  | ValueError (msg : string)
  | TypeError
  | AttributeError
  | KeyError
  | IndexError
  | OverflowError
  | EOFError
  | CsvError
  | SystemExit (code : Z).

Inductive res (A : Type) :=
  | Ret (a : A)
  | Raise (e : exn).
Arguments Ret {A} a.
Arguments Raise {A} e.

#[global] Instance res_ret : MRet res := fun A a => Ret a.
#[global] Instance res_bind : MBind res := fun A B f m =>
  match m with
  | Ret a => f a
  | Raise e => Raise e
  end.

(** Library functions whose text output or text input the program relies
    on but never inspects: they are taken as given. *)
Class Builtins := {
  (** [repr] of a float, as [str] and the csv writer print it *)
  float_repr : spec_float -> string;
  (** [str] of a list or a dictionary *)
  container_str : pyval -> string;
  (** [float(s)] for a string [s] *)
  float_of_str : string -> res spec_float;
  (** [int(s)] for a string [s] *)
  int_of_str : string -> res Z;
  (** the text of the [ValueError] of [DictWriter] for unexpected keys *)
  extras_message : list string -> string
}.

(** Truth value of an object, as [or] and [if] test it. *)
Definition truthy (v : pyval) : bool :=
  match v with
  | PNone => false
  | PBool b => b
  | PInt z => negb (Z.eqb z 0)
  | PFloat (S754_zero _) => false
  | PFloat _ => true
  | PStr s => Str.nonempty s
  | PList l => match l with [] => false | _ :: _ => true end
  | PDict d => negb (Nat.eqb (size d) 0)
  end.

(** [x or y] *)
Definition py_or (x y : pyval) : pyval := if truthy x then x else y.

Definition is_none (v : pyval) : bool :=
  match v with PNone => true | _ => false end.

(** [obj.get(key, default)]: only a dictionary has the method. *)
Definition py_get (obj : pyval) (key : string) (dflt : pyval) : res pyval :=
  match obj with
  | PDict d => Ret (default dflt (d !! key))
  | _ => Raise AttributeError
  end.

(** [obj[0]] *)
Definition py_index0 (obj : pyval) : res pyval :=
  match obj with
  | PList (x :: _) => Ret x
  | PList [] => Raise IndexError
  | PStr (String c _) => Ret (PStr (String c ""))
  | PStr "" => Raise IndexError
  | PDict _ => Raise KeyError
  | _ => Raise TypeError
  end.

(** *** Numbers *)

(** The float nearest to the integer [z] (ties to even). *)
Definition float_of_Z (z : Z) : spec_float := binary_normalize prec emax z 0 false.

(** The exact value of a finite float as a fraction [n / d]. *)
Definition float_fraction (f : spec_float) : Z * positive :=
  match f with
  | S754_finite s m e =>
      match e with
      | Zneg p => (cond_Zopp s (Zpos m), Pos.pow 2 p)
      | _ => (cond_Zopp s (Zpos m * 2 ^ e), 1%positive)
      end
  | _ => (0%Z, 1%positive)
  end.

Definition is_finite (f : spec_float) : bool :=
  match f with
  | S754_finite _ _ _ | S754_zero _ => true
  | _ => false
  end.

(** The integer nearest to [n / d], ties to the even one ([0 <= n]). *)
Definition round_half_even (n : Z) (d : positive) : Z :=
  let q := (n / Zpos d)%Z in
  let r := (n mod Zpos d)%Z in
  match (2 * r ?= Zpos d)%Z with
  | Lt => q
  | Gt => (q + 1)%Z
  | Eq => if Z.even q then q else (q + 1)%Z
  end.

(** The float nearest to [k / 10] with sign [s] ([0 <= k]). *)
Definition float_of_tenths (s : bool) (k : Z) : spec_float :=
  match k with
  | Zpos _ =>
      let '(q, e, l) := SFdiv_core_binary prec emax k 0 10 0 in
      binary_round_aux prec emax s q e l
  | _ => S754_zero s
  end.

(** [round(x, 1)] on a float: infinities, NaN and zeros round to
    themselves; a finite [x] is rounded, on its exact value and ties to
    even, to a multiple of one tenth, and the float nearest to that decimal
    is returned. *)
Definition py_round1 (x : spec_float) : spec_float :=
  match x with
  | S754_finite s m e =>
      let '(n, d) := float_fraction (S754_finite false m e) in
      float_of_tenths s (round_half_even (10 * n) d)
  | _ => x
  end.

(** [int(x)] on a float: the integer part, towards zero. *)
Definition trunc_float (f : spec_float) : res Z :=
  match f with
  | S754_zero _ => Ret 0%Z
  | S754_finite s m e => Ret (cond_Zopp s (Z.shiftl (Zpos m) e))
  | S754_infinity _ => Raise OverflowError
  | S754_nan => Raise (ValueError "cannot convert float NaN to integer")
  end.

Section WithBuiltins.
Context {B : Builtins}.

(** [float(v)] *)
Definition py_float (v : pyval) : res spec_float :=
  match v with
  | PBool b => Ret (float_of_Z (if b then 1 else 0))
  | PInt z =>
      match float_of_Z z with
      | S754_infinity _ => Raise OverflowError
      | f => Ret f
      end
  | PFloat f => Ret f
  | PStr s => float_of_str s
  | PNone | PList _ | PDict _ => Raise TypeError
  end.

(** [int(v)] *)
Definition py_int (v : pyval) : res Z :=
  match v with
  | PBool b => Ret (if b then 1 else 0)%Z
  | PInt z => Ret z
  | PFloat f => trunc_float f
  | PStr s => int_of_str s
  | PNone | PList _ | PDict _ => Raise TypeError
  end.

(** [str(v)], which is also how an f-string prints [v]. *)
Definition py_str (v : pyval) : string :=
  match v with
  | PNone => "None"
  | PBool true => "True"
  | PBool false => "False"
  | PInt z => pretty z
  | PFloat f => float_repr f
  | PStr s => s
  | PList _ | PDict _ => container_str v
  end.

End WithBuiltins.

(** ** Effects: a state that survives exceptions *)

Definition ST (S A : Type) : Type := S -> res A * S.

#[global] Instance ST_ret {S} : MRet (ST S) := fun A a s => (Ret a, s).
#[global] Instance ST_bind {S} : MBind (ST S) := fun A B f m s =>
  match m s with
  | (Ret a, s') => f a s'
  | (Raise e, s') => (Raise e, s')
  end.

Definition raise {S A} (e : exn) : ST S A := fun s => (Raise e, s).

(** A pure computation that may raise, run inside a stateful one. *)
Definition lift {S A} (r : res A) : ST S A := fun s => (r, s).

(** [try: body  except ValueError as err: handler(str(err))] *)
Definition try_except_ValueError {S A}
    (body : ST S A) (handler : string -> ST S A) : ST S A := fun s =>
  match body s with
  | (Raise (ValueError msg), s') => handler msg s'
  | other => other
  end.

(** What the weather service answers to one GET: the request fails in
    transport, or a response arrives with a status code and a body that
    decodes as JSON or does not. *)
Inductive http_reply :=
  | TransportError (text : string)
  | Response (status_code : Z) (json : option pyval).

(** A path is its text; the files are a flat store from paths to contents,
    every path of which can be created, appended to and read. *)
Abbreviation Path := string (only parsing).

Record world := World {
  environ : option string;        (** the value of OPENWEATHER_API_KEY *)
  stdin : list string;            (** the lines still to be typed *)
  stdout : list string;           (** the chunks written so far *)
  http : string -> string -> http_reply;  (** reply for a city and a key *)
  fs : gmap string string         (** the files *)
}.

Definition M (A : Type) : Type := ST world A.

Definition set_stdin (l : list string) (w : world) : world :=
  World (environ w) l (stdout w) (http w) (fs w).
Definition set_stdout (l : list string) (w : world) : world :=
  World (environ w) (stdin w) l (http w) (fs w).
Definition set_fs (f : gmap string string) (w : world) : world :=
  World (environ w) (stdin w) (stdout w) (http w) f.

(** [print(s)] *)
Definition print (s : string) : M unit := fun w =>
  (Ret tt, set_stdout (stdout w ++ [s +:+ Str.nl]) w).

(** [input(prompt)]: the prompt is written, a line is read without its
    newline; at end of input [EOFError]. *)
Definition input (prompt : string) : M string := fun w =>
  let w' := set_stdout (stdout w ++ [prompt]) w in
  match stdin w' with
  | [] => (Raise EOFError, w')
  | l :: rest => (Ret l, set_stdin rest w')
  end.

(** [sys.exit(code)] *)
Definition sys_exit {A} (code : Z) : M A := raise (SystemExit code).

(** [os.getenv("OPENWEATHER_API_KEY")] *)
Definition getenv_key : M (option string) := fun w => (Ret (environ w), w).

(** The exit status of the process when the script body ends with [r]. *)
Definition exit_status {A} (r : res A) : Z :=
  match r with
  | Ret _ => 0
  | Raise (SystemExit code) => code
  | Raise _ => 1
  end.

(** *** Paths and files *)

(** The components of a path between slashes. *)
Fixpoint components (s : string) : list string :=
  match s with
  | "" => [""]
  | String c s' =>
      if Ascii.eqb c "/" then "" :: components s'
      else match components s' with
           | [] => [String c ""]
           | p :: ps => String c p :: ps
           end
  end.

(** [path.name]: the last component, empty and "." components dropped. *)
Definition path_name (p : Path) : string :=
  List.last
    (List.filter (fun x => Str.nonempty x && negb (String.eqb x "."))
                 (components p))
    "".

(** [path.exists()] *)
Definition path_exists (p : Path) : M bool := fun w =>
  (Ret (bool_decide (is_Some (fs w !! p))), w).

(** [path.stat().st_size] of an existing file; the call does not fail in
    this store. *)
Definition st_size (p : Path) : M nat := fun w =>
  (Ret (String.length (default "" (fs w !! p))), w).

(** [with path.open(mode="a") as f: body]: the file is created when
    absent, what the body wrote is appended, also when the body raises. *)
Definition with_open_append {A} (p : Path) (body : ST string A) : M A := fun w =>
  let '(r, written) := body "" in
  (r, set_fs (<[p := default "" (fs w !! p) +:+ written]> (fs w)) w).

(** [with path.open(mode="r") as f]: the whole text. *)
Definition read_text (p : Path) : M string := fun w =>
  (Ret (default "" (fs w !! p)), w).

(** [f.write(text)] on the file being appended to. *)
Definition file_write (text : string) : ST string unit := fun buf =>
  (Ret tt, buf +:+ text).

(** ** The csv module, excel dialect

    Delimiter comma, quote character the double quote, quotes doubled
    inside a quoted field, minimal quoting, line terminator CR LF, not
    strict. *)

Module Csv.

Import Str.

(** *** Writer *)

Definition special (c : ascii) : bool :=
  Ascii.eqb c COMMA || Ascii.eqb c DQUOTE || Ascii.eqb c CR || Ascii.eqb c LF.

Fixpoint needs_quotes (field : string) : bool :=
  match field with
  | "" => false
  | String c s => special c || needs_quotes s
  end.

Fixpoint double_quotes (field : string) : string :=
  match field with
  | "" => ""
  | String c s =>
      if Ascii.eqb c DQUOTE then String DQUOTE (String DQUOTE (double_quotes s))
      else String c (double_quotes s)
  end.

Definition quote_field (field : string) : string :=
  if needs_quotes field
  then String DQUOTE (double_quotes field +:+ String DQUOTE "")
  else field.

(** The text [writer.writerow] emits for the fields of one record; a lone
    empty field is written as a pair of quotes. *)
Definition format_record (fields : list string) : string :=
  match fields with
  | [""] => String DQUOTE (String DQUOTE "") +:+ crlf
  | _ => join "," (map quote_field fields) +:+ crlf
  end.

(** *** Reader *)

Inductive parser_state :=
  | START_RECORD
  | START_FIELD
  | IN_FIELD
  | IN_QUOTED_FIELD
  | QUOTE_IN_QUOTED_FIELD
  | EAT_CRNL.

Record reader := Reader {
  state : parser_state;
  field : string;          (** the field being read *)
  fields : list string     (** the fields of the record read so far *)
}.

Definition field_size_limit : N := 131072.

Definition parse_reset : reader := Reader START_RECORD "" [].

Definition set_state (st : parser_state) (r : reader) : reader :=
  Reader st (field r) (fields r).

Definition parse_save_field (r : reader) : reader :=
  Reader (state r) "" (fields r ++ [field r]).

Definition parse_add_char (c : ascii) (r : reader) : res reader :=
  if N.leb field_size_limit (N.of_nat (String.length (field r)))
  then Raise CsvError
  else Ret (Reader (state r) (field r +:+ String c "") (fields r)).

Definition is_newline (c : ascii) : bool := Ascii.eqb c LF || Ascii.eqb c CR.

(** The case START_FIELD, which START_RECORD falls through to. *)
Definition start_field (c : option ascii) (r : reader) : res reader :=
  match c with
  | None => Ret (set_state START_RECORD (parse_save_field r))
  | Some ch =>
      if is_newline ch then Ret (set_state EAT_CRNL (parse_save_field r))
      else if Ascii.eqb ch DQUOTE then Ret (set_state IN_QUOTED_FIELD r)
      else if Ascii.eqb ch COMMA then Ret (set_state START_FIELD (parse_save_field r))
      else r' ← parse_add_char ch r; Ret (set_state IN_FIELD r')
  end.

(** One step of the reader on a character, or on the end of a line
    ([None]). *)
Definition parse_process_char (c : option ascii) (r : reader) : res reader :=
  match state r with
  | START_RECORD =>
      match c with
      | None => Ret r
      | Some ch =>
          if is_newline ch then Ret (set_state EAT_CRNL r)
          else start_field c r
      end
  | START_FIELD => start_field c r
  | IN_FIELD =>
      match c with
      | None => Ret (set_state START_RECORD (parse_save_field r))
      | Some ch =>
          if is_newline ch then Ret (set_state EAT_CRNL (parse_save_field r))
          else if Ascii.eqb ch COMMA then Ret (set_state START_FIELD (parse_save_field r))
          else parse_add_char ch r
      end
  | IN_QUOTED_FIELD =>
      match c with
      | None => Ret r
      | Some ch =>
          if Ascii.eqb ch DQUOTE then Ret (set_state QUOTE_IN_QUOTED_FIELD r)
          else parse_add_char ch r
      end
  | QUOTE_IN_QUOTED_FIELD =>
      match c with
      | None => Ret (set_state START_RECORD (parse_save_field r))
      | Some ch =>
          if Ascii.eqb ch DQUOTE
          then r' ← parse_add_char ch r; Ret (set_state IN_QUOTED_FIELD r')
          else if Ascii.eqb ch COMMA then Ret (set_state START_FIELD (parse_save_field r))
          else if is_newline ch then Ret (set_state EAT_CRNL (parse_save_field r))
          else r' ← parse_add_char ch r; Ret (set_state IN_FIELD r')
      end
  | EAT_CRNL =>
      match c with
      | None => Ret (set_state START_RECORD r)
      | Some ch => if is_newline ch then Ret r else Raise CsvError
      end
  end.

(** The characters of a line, then the end of the line. *)
Fixpoint parse_line (line : string) (r : reader) : res reader :=
  match line with
  | "" => parse_process_char None r
  | String c s => r' ← parse_process_char (Some c) r; parse_line s r'
  end.

(** The lines a text file opened with [newline=""] iterates over: a line
    ends after LF, CR LF or a lone CR, and keeps its ending. *)
Fixpoint file_lines (text : string) : list string :=
  match text with
  | "" => []
  | String c s =>
      if Ascii.eqb c LF then String c "" :: file_lines s
      else if Ascii.eqb c CR then
        match s with
        | String d s' =>
            if Ascii.eqb d LF then String c (String d "") :: file_lines s'
            else String c "" :: file_lines s
        | "" => [String c ""]
        end
      else match file_lines s with
           | [] => [String c ""]
           | l :: ls => String c l :: ls
           end
  end.

(** The records [csv.reader] yields from the lines: lines are consumed
    until the reader is back at the start of a record; at the end of the
    input an open quoted field closes the last record. *)
Fixpoint records (lines : list string) (r : reader) : res (list (list string)) :=
  match lines with
  | [] =>
      if nonempty (field r)
         || match state r with IN_QUOTED_FIELD => true | _ => false end
      then Ret [fields (parse_save_field r)]
      else Ret []
  | l :: ls =>
      r' ← parse_line l r;
      match state r' with
      | START_RECORD => rest ← records ls parse_reset; Ret (fields r' :: rest)
      | _ => records ls r'
      end
  end.

(** [list(csv.reader(f))] for the file with this text. *)
Definition reader_rows (text : string) : res (list (list string)) :=
  records (file_lines text) parse_reset.

End Csv.

(** ** The program *)

Definition CSV_FILE : Path := "city_data.csv".
Definition CSV_HEADERS : list string :=
  ["City"; "Country"; "Temperature (C)"; "Humidity (%)"; "Description"].

Section Program.
Context {B : Builtins}.

(** *** csv.DictWriter and csv.DictReader *)

(** The text of one cell: [None] is written empty, a string as it is,
    anything else through [str]. *)
Definition cell_text (v : pyval) : string :=
  match v with
  | PNone => ""
  | _ => py_str v
  end.

(** [DictWriter._dict_to_list]: keys outside the field names are refused,
    a missing field is written empty. *)
Definition dict_to_list (fieldnames : list string) (rowdict : gmap string pyval)
    : res (list pyval) :=
  let wrong_fields :=
    List.filter (fun k => negb (bool_decide (k ∈ fieldnames)))
                (map fst (map_to_list rowdict)) in
  match wrong_fields with
  | [] => Ret (map (fun key => default (PStr "") (rowdict !! key)) fieldnames)
  | _ => Raise (ValueError (extras_message wrong_fields))
  end.

(** [DictWriter.writerow(rowdict)] *)
Definition writerow (fieldnames : list string) (rowdict : gmap string pyval)
    : ST string unit :=
  cells ← lift (dict_to_list fieldnames rowdict);
  file_write (Csv.format_record (map cell_text cells)).

(** [DictWriter.writeheader()]: the row that maps each field name to
    itself. *)
Definition writeheader (fieldnames : list string) : ST string unit :=
  writerow fieldnames (list_to_map (map (fun k => (k, PStr k)) fieldnames)).

(** A row of [DictReader]: the cells under their field names, cells beyond
    the field names as a list under the key [None], field names beyond the
    cells bound to [None]. *)
Definition reader_row (fieldnames row : list string) : gmap (option string) pyval :=
  let d : gmap (option string) pyval :=
    foldl (fun m kv => <[Some (fst kv) := PStr (snd kv)]> m) ∅
          (zip fieldnames row) in
  let lf := length fieldnames in
  let lr := length row in
  if Nat.ltb lf lr then <[None := PList (map PStr (drop lf row))]> d
  else if Nat.ltb lr lf
  then foldl (fun m key => <[Some key := PNone]> m) d (drop lr fieldnames)
  else d.

(** [list(csv.DictReader(f))]: the first record gives the field names, the
    empty records after it are skipped. *)
Definition dict_reader_rows (text : string) : res (list (gmap (option string) pyval)) :=
  recs ← Csv.reader_rows text;
  match recs with
  | [] => Ret []
  | fieldnames :: rest =>
      Ret (map (reader_row fieldnames)
               (List.filter (fun row => match row with [] => false | _ => true end)
                            rest))
  end.

(** *** get_api_key *)

Definition get_api_key : M string :=
  key ← getenv_key;
  if match key with
     | Some k => Str.nonempty k && Str.nonempty (Str.strip k)
     | None => false
     end
  then mret (Str.strip (default "" key))
  else
    print "No OPENWEATHER_API_KEY found in environment.";;
    key ← input "Enter your OpenWeatherMap API key: ";
    let key := Str.strip key in
    if negb (Str.nonempty key)
    then print "An API key is required. Exiting.";; sys_exit 1
    else mret key.

(** *** prompt_city *)

(** [" ".join(raw.split()).title()] *)
Definition normalized (raw : string) : string :=
  Str.title (Str.join " " (Str.split raw)).

(** The loop of [prompt_city] over the lines still to be typed: the result,
    the lines left and the chunks written. *)
Fixpoint prompt_city_loop (lines : list string)
    : res string * list string * list string :=
  match lines with
  | [] => (Raise EOFError, [], ["Enter a city name: "])
  | line :: rest =>
      let raw := Str.strip line in
      if Str.nonempty raw
      then (Ret (normalized raw), rest, ["Enter a city name: "])
      else
        let '(r, remaining, out) := prompt_city_loop rest in
        (r, remaining,
         "Enter a city name: "
           :: ("City name cannot be empty. Please try again." +:+ Str.nl)
           :: out)
  end.

Definition prompt_city : M string := fun w =>
  let '(r, remaining, out) := prompt_city_loop (stdin w) in
  (r, set_stdin remaining (set_stdout (stdout w ++ out) w)).

(** *** fetch_weather *)

Definition fetch_weather (city api_key : string) : M pyval := fun w =>
  match http w city api_key with
  | TransportError text =>
      (Raise (ValueError ("Network error contacting the API: " +:+ text)), w)
  | Response status_code json =>
      let data := default (PDict ∅) json in
      if Z.eqb status_code 200 then (Ret data, w)
      else if Z.eqb status_code 401
      then (Raise (ValueError "Unauthorized (401): Invalid or missing API key."), w)
      else if Z.eqb status_code 404
      then (msg ← py_get data "message" (PStr "City not found.");
            Raise (ValueError ("Not found (404): " +:+ py_str msg)), w)
      else (msg ← py_get data "message" (PStr "Unexpected error");
            Raise (ValueError ("API error (" +:+ pretty status_code +:+ "): "
                               +:+ py_str msg)), w)
  end.

(** *** parse_weather *)

Definition parse_weather (data : pyval) : res (gmap string pyval) :=
  city ← py_get data "name" (PStr "Unknown");
  sys ← py_get data "sys" PNone;
  country ← py_get (py_or sys (PDict ∅)) "country" (PStr "—");
  main ← py_get data "main" PNone;
  let main := py_or main (PDict ∅) in
  temp_c ← py_get main "temp" PNone;
  humidity ← py_get main "humidity" PNone;
  weather_list ← py_get data "weather" PNone;
  let weather_list := py_or weather_list (PList []) in
  description ←
    (if truthy weather_list
     then first ← py_index0 weather_list; py_get first "description" PNone
     else Ret (PStr ""));
  let description := py_or description (PStr "n/a") in
  if is_none temp_c || is_none humidity
  then Raise (ValueError "API response missing temperature or humidity fields.")
  else
    temperature ← py_float temp_c;
    humidity ← py_int humidity;
    Ret (<["City" := city]>
         (<["Country" := country]>
          (<["Temperature (C)" := PFloat (py_round1 temperature)]>
           (<["Humidity (%)" := PInt humidity]>
            (<["Description" := description]> ∅))))).

(** *** print_summary *)

(** [row[key]] *)
Definition getitem (row : gmap string pyval) (key : string) : res pyval :=
  match row !! key with
  | Some v => Ret v
  | None => Raise KeyError
  end.

Definition print_summary (row : gmap string pyval) : M unit :=
  city ← lift (getitem row "City");
  country ← lift (getitem row "Country");
  description ← lift (getitem row "Description");
  temp ← lift (getitem row "Temperature (C)");
  humidity ← lift (getitem row "Humidity (%)");
  print (Str.nl +:+ "Weather for " +:+ py_str city +:+ ", " +:+ py_str country
         +:+ ": " +:+ py_str description +:+ " | " +:+ "Temp: " +:+ py_str temp
         +:+ "°C | " +:+ "Humidity: " +:+ py_str humidity +:+ "%" +:+ Str.nl).

(** *** write_row_to_csv *)

Definition write_row_to_csv (row : gmap string pyval) (csv_path : Path) : M unit :=
  file_exists ← path_exists csv_path;
  write_header ←
    (if file_exists : bool
     then size ← st_size csv_path; mret (Nat.eqb size 0)
     else mret true);
  with_open_append csv_path
    ((if write_header : bool then writeheader CSV_HEADERS else mret tt);;
     writerow CSV_HEADERS row).

(** *** read_and_report *)

Definition report_line (r : gmap (option string) pyval) : string :=
  let city := default (PStr "Unknown") (r !! Some "City") in
  let temp := default (PStr "n/a") (r !! Some "Temperature (C)") in
  " - " +:+ py_str city +:+ ": " +:+ py_str temp +:+ "°C".

Fixpoint print_all (lines : list string) : M unit :=
  match lines with
  | [] => mret tt
  | l :: ls => print l;; print_all ls
  end.

Definition read_and_report (csv_path : Path) : M unit :=
  file_exists ← path_exists csv_path;
  size ← (if file_exists : bool then st_size csv_path else mret 0);
  if negb file_exists || Nat.eqb size 0
  then print "No CSV data to report yet."
  else
    text ← read_text csv_path;
    rows ← lift (dict_reader_rows text);
    match rows with
    | [] => print "No CSV data to report yet."
    | _ =>
        print ("Entries in " +:+ path_name csv_path +:+ ": "
               +:+ pretty (length rows));;
        print_all (map report_line rows)
    end.

(** *** main *)

Definition main : M unit :=
  api_key ← get_api_key;
  city ← prompt_city;
  parsed ← try_except_ValueError
    (raw_data ← fetch_weather city api_key;
     lift (parse_weather raw_data))
    (fun err => print ("Error: " +:+ err);; sys_exit 1);
  print_summary parsed;;
  write_row_to_csv parsed CSV_FILE;;
  read_and_report CSV_FILE.

(** [N] calls of [write_row_to_csv], one after the other. *)
Fixpoint write_rows (rows : list (gmap string pyval)) (csv_path : Path) : M unit :=
  match rows with
  | [] => mret tt
  | row :: rest => write_row_to_csv row csv_path;; write_rows rest csv_path
  end.

End Program.

(** ** Vocabulary of the statements *)

(** A field that is absent or bound to [None] (JSON null). *)
Definition missing (o : option pyval) : bool :=
  match o with
  | None | Some PNone => true
  | Some _ => false
  end.

(** A field that is absent, null or a mapping. *)
Definition mapping_or_missing (o : option pyval) : bool :=
  match o with
  | None | Some PNone | Some (PDict _) => true
  | Some _ => false
  end.

(** The field [weather]: absent, null, or a sequence that is empty or
    starts with a mapping. *)
Definition weather_or_missing (o : option pyval) : bool :=
  match o with
  | None | Some PNone | Some (PList []) | Some (PList (PDict _ :: _)) => true
  | Some _ => false
  end.

(** The field [key] of the mapping under [main], if there is one. *)
Definition main_field (data : gmap string pyval) (key : string) : option pyval :=
  match data !! "main" with
  | Some (PDict main) => main !! key
  | _ => None
  end.

(** A temperature: a float that is a number, or an integer within the
    range of floats. *)
Definition is_temperature (v : pyval) : bool :=
  match v with
  | PInt z => is_finite (float_of_Z z)
  | PFloat f => is_finite f
  | _ => false
  end.

(** A humidity: an integer, or a float that is a number. *)
Definition is_humidity (v : pyval) : bool :=
  match v with
  | PInt _ => true
  | PFloat f => is_finite f
  | _ => false
  end.

(** The float a temperature stands for. *)
Definition as_float (v : pyval) : spec_float :=
  match v with
  | PInt z => float_of_Z z
  | PFloat f => f
  | _ => S754_nan
  end.

(** The exact value of a number as a fraction. *)
Definition number_fraction (v : pyval) : Z * positive :=
  match v with
  | PInt z => (z, 1%positive)
  | PFloat f => float_fraction f
  | _ => (0%Z, 1%positive)
  end.

(** The number truncated towards zero. *)
Definition truncation (v : pyval) : Z :=
  let '(n, d) := number_fraction v in Z.quot n (Zpos d).

(** [t] is the number [x] rounded to one decimal place: the float nearest
    to [k / 10], with the sign of [x], for the integer [k] nearest to ten
    times the magnitude of [x], the even one of two that are equally near;
    a zero, an infinity and NaN are kept. *)
Definition rounded_to_tenth (x t : spec_float) : Prop :=
  match x with
  | S754_finite s m e =>
      exists k : Z,
        t = float_of_tenths s k /\ (0 <= k)%Z
        /\ let '(n, d) := float_fraction (S754_finite false m e) in
           (2 * Z.abs (10 * n - k * Zpos d) <= Zpos d)%Z
           /\ ((2 * Z.abs (10 * n - k * Zpos d) = Zpos d)%Z -> Z.even k = true)
  | _ => t = x
  end.

(** [z] is the number [v] truncated towards zero: the integer of the sign
    of [v] whose magnitude is the largest integer not above the magnitude
    of [v]. *)
Definition truncated (v : pyval) (z : Z) : Prop :=
  let '(n, d) := number_fraction v in
  (Z.abs z * Zpos d <= Z.abs n < (Z.abs z + 1) * Zpos d)%Z /\ (0 <= z * n)%Z.

(** The row of the five columns. *)
Definition weather_row (city country temperature humidity description : pyval)
    : gmap string pyval :=
  <["City" := city]>
  (<["Country" := country]>
   (<["Temperature (C)" := temperature]>
    (<["Humidity (%)" := humidity]>
     (<["Description" := description]> ∅)))).

(** The field [country] of the mapping under [sys], and the field
    [description] of the mapping that starts the sequence under [weather],
    where there are such. *)
Definition sys_country (data : gmap string pyval) : option pyval :=
  match data !! "sys" with
  | Some (PDict sys) => sys !! "country"
  | _ => None
  end.

Definition first_description (data : gmap string pyval) : option pyval :=
  match data !! "weather" with
  | Some (PList (PDict first :: _)) => first !! "description"
  | _ => None
  end.

(** A description that is there and not empty, or the substitute. *)
Definition description_or_na (o : option pyval) : pyval :=
  match o with
  | Some d => if truthy d then d else PStr "n/a"
  | None => PStr "n/a"
  end.

(** What the row shows for the city, the country and the description of a
    response, with the substitutes for what the response lacks. *)
Definition city_of (data : gmap string pyval) : pyval :=
  default (PStr "Unknown") (data !! "name").

Definition country_of (data : gmap string pyval) : pyval :=
  default (PStr "—") (sys_country data).

Definition description_of (data : gmap string pyval) : pyval :=
  description_or_na (first_description data).

Definition MISSING_FIELDS : string :=
  "API response missing temperature or humidity fields.".

(** A row whose keys are all among the columns, as the writer accepts
    it. *)
Definition record_keys (row : gmap string pyval) : bool :=
  forallb (fun k => bool_decide (k ∈ CSV_HEADERS)) (map fst (map_to_list row)).

Section Lines.
Context {B : Builtins}.

(** The line of the header and the line of a row in the file. *)
Definition header_line : string := Csv.format_record CSV_HEADERS.

Definition row_line (row : gmap string pyval) : string :=
  Csv.format_record
    (map (fun key => cell_text (default (PStr "") (row !! key))) CSV_HEADERS).

Fixpoint row_lines (rows : list (gmap string pyval)) : string :=
  match rows with
  | [] => ""
  | row :: rest => row_line row +:+ row_lines rest
  end.

End Lines.

(** The cell of a row under the column [col]: nothing when the header has
    no such column, [Some None] when the header has it and the row is too
    short to reach it, the cell otherwise; of two columns of the same name
    the later one counts. *)
Fixpoint column (col : string) (fieldnames row : list string)
    : option (option string) :=
  match fieldnames with
  | [] => None
  | name :: names =>
      match column col names (tail row) with
      | Some cell => Some cell
      | None => if String.eqb name col then Some (head row) else None
      end
  end.

(** A cell as [DictReader] stores it. *)
Definition cell_value (cell : option string) : pyval :=
  match cell with
  | Some c => PStr c
  | None => PNone
  end.

(** The text shown for a column of a row: the cell, [placeholder] when the
    header lacks the column, "None" when the row is too short. *)
Definition column_text (col placeholder : string) (fieldnames row : list string)
    : string :=
  match column col fieldnames row with
  | None => placeholder
  | Some None => "None"
  | Some (Some cell) => cell
  end.

(** The records of a file that are rows of data: those that are not empty. *)
Definition data_rows (recs : list (list string)) : list (list string) :=
  List.filter (fun row => match row with [] => false | _ => true end) recs.

Definition NOTHING_TO_REPORT : string := "No CSV data to report yet.".

(** ** The csv reader as a run over one stream *)

Module CsvStream.

Import Str Csv.

Definition starts_with_LF (s : string) : bool :=
  match s with
  | "" => false
  | String c _ => Ascii.eqb c LF
  end.

(** The characters of a text with the ends of its lines marked: [None]
    after each LF, after each CR that no LF follows, and at the end of a
    text that stops within a line. *)
Fixpoint tokens (text : string) : list (option ascii) :=
  match text with
  | "" => []
  | String c s =>
      Some c ::
      (if Ascii.eqb c LF then None :: tokens s
       else if Ascii.eqb c CR
       then (if starts_with_LF s then tokens s else None :: tokens s)
       else match s with
            | "" => [None]
            | _ => tokens s
            end)
  end.

Fixpoint chars_some (line : string) : list (option ascii) :=
  match line with
  | "" => []
  | String c s => Some c :: chars_some s
  end.

(** The tokens of lines: their characters, each line closed by [None]. *)
Fixpoint tokens_of_lines (lines : list string) : list (option ascii) :=
  match lines with
  | [] => []
  | l :: ls => chars_some l ++ None :: tokens_of_lines ls
  end.

(** The records of the reader, run over tokens: a record is complete when
    the end of a line leaves the reader at the start of a record. *)
Fixpoint run (toks : list (option ascii)) (r : reader) : res (list (list string)) :=
  match toks with
  | [] =>
      if nonempty (field r)
         || match state r with IN_QUOTED_FIELD => true | _ => false end
      then Ret [fields (parse_save_field r)]
      else Ret []
  | t :: ts =>
      r' ← parse_process_char t r;
      match t with
      | Some _ => run ts r'
      | None =>
          match state r' with
          | START_RECORD => rest ← run ts parse_reset; Ret (fields r' :: rest)
          | _ => run ts r'
          end
      end
  end.

(** The text of records written one after the other. *)
Fixpoint format_records (recs : list (list string)) : string :=
  match recs with
  | [] => ""
  | rec :: rest => format_record rec +:+ format_records rest
  end.

(** A field the reader accepts: no longer than its limit. *)
Definition field_fits (field : string) : bool :=
  N.leb (N.of_nat (String.length field)) field_size_limit.

(** The reader after the text of a field: the quote that closed it seen,
    or within the field, or still where it started when the field is
    empty. *)
Definition after_field (st : parser_state) (f : string) (fs : list string) : reader :=
  if needs_quotes f then Reader QUOTE_IN_QUOTED_FIELD f fs
  else match f with
       | "" => Reader st "" fs
       | _ => Reader IN_FIELD f fs
       end.

End CsvStream.

(** ** More vocabulary *)

(** The key variable is unset or blank. *)
Definition no_key_in_environment (w : world) : bool :=
  match environ w with
  | Some k => Str.all_space k
  | None => true
  end.

Definition CITY_PROMPT : string := "Enter a city name: ".
Definition CITY_RETRY : string :=
  "City name cannot be empty. Please try again." +:+ Str.nl.

(** What is written while [blanks] are typed and a further line is asked. *)
Definition city_dialogue (blanks : list string) : list string :=
  flat_map (fun _ => [CITY_PROMPT; CITY_RETRY]) blanks ++ [CITY_PROMPT].


Section MoreLines.
Context {B : Builtins}.

(** The text [print_summary] hands to [print]. *)
Definition summary_text (city country description temp humidity : pyval) : string :=
  Str.nl +:+ "Weather for " +:+ py_str city +:+ ", " +:+ py_str country
  +:+ ": " +:+ py_str description +:+ " | " +:+ "Temp: " +:+ py_str temp
  +:+ "°C | " +:+ "Humidity: " +:+ py_str humidity +:+ "%" +:+ Str.nl.

Definition summary_of_row (row : gmap string pyval) : string :=
  summary_text (default PNone (row !! "City")) (default PNone (row !! "Country"))
    (default PNone (row !! "Description"))
    (default PNone (row !! "Temperature (C)"))
    (default PNone (row !! "Humidity (%)")).

(** The cells of a row in the order of the columns. *)
Definition row_cells (row : gmap string pyval) : list string :=
  map (fun key => cell_text (default (PStr "") (row !! key))) CSV_HEADERS.

(** Every cell of the row is within the limit of the reader. *)
Definition row_fits (row : gmap string pyval) : bool :=
  forallb CsvStream.field_fits (row_cells row).

(** The line of the report for a row that was written. *)
Definition entry_line (row : gmap string pyval) : string :=
  " - " +:+ cell_text (default (PStr "") (row !! "City")) +:+ ": "
  +:+ cell_text (default (PStr "") (row !! "Temperature (C)")) +:+ "°C"
  +:+ Str.nl.

End MoreLines.

(** The keys of a row that are not columns. *)
Definition wrong_fields (row : gmap string pyval) : list string :=
  List.filter (fun k => negb (bool_decide (k ∈ CSV_HEADERS)))
              (map fst (map_to_list row)).

(** The test of [write_row_to_csv] for the header: the file is absent or
    has no content. *)
Definition write_header_needed (p : Path) (w : world) : bool :=
  match fs w !! p with
  | None => true
  | Some content => Nat.eqb (String.length content) 0
  end.

Section AfterWrite.
Context {B : Builtins}.

(** The world after the summary is printed and the row is written. *)
Definition after_write (row : gmap string pyval) (w : world) : world :=
  set_fs (<[CSV_FILE := default "" (fs w !! CSV_FILE)
                        +:+ (if write_header_needed CSV_FILE w then header_line else "")
                        +:+ row_line row]> (fs w))
         (set_stdout (stdout w ++ [summary_of_row row +:+ Str.nl]) w).

End AfterWrite.

(** ** Sample inputs *)

Module Sample.

(** Stand-ins for the library functions of [Builtins]. *)
Definition builtins : Builtins := {|
  float_repr := fun _ => "15.3";
  container_str := fun _ => "[]";
  float_of_str := fun _ => Raise (ValueError "could not convert string to float");
  int_of_str := fun _ => Raise (ValueError "invalid literal for int() with base 10");
  extras_message := fun _ => "dict contains fields not in fieldnames"
|}.

(** The float 15.34 and the float 15.3. *)
Definition f15_34 : spec_float := S754_finite false 8635652285482926 (-49).
Definition f15_3 : spec_float := S754_finite false 8613134287346074 (-49).

(** The response of the service for New York. *)
Definition new_york : gmap string pyval :=
  <["name" := PStr "New York"]>
  (<["sys" := PDict (<["country" := PStr "US"]> ∅)]>
   (<["main" := PDict (<["temp" := PFloat f15_34]> (<["humidity" := PInt 72]> ∅))]>
    (<["weather" := PList [PDict (<["description" := PStr "clear sky"]> ∅)]]> ∅))).

(** A response with readings only, and one without readings. *)
Definition f72_9 : spec_float := S754_finite false 5129881450551706 (-46).

Definition readings_only : gmap string pyval :=
  <["main" := PDict (<["temp" := PInt 15]> (<["humidity" := PFloat f72_9]> ∅))]> ∅.

Definition no_readings : gmap string pyval :=
  <["name" := PStr "Paris"]> (<["main" := PDict (<["temp" := PInt 15]> ∅)]> ∅).

(** A response whose field [sys] is a number. *)
Definition sys_is_number : gmap string pyval := <["sys" := PInt 5]> ∅.

(** Two rows, and a file of a header, a full row, a blank line, a row
    with a quoted cell and a row that stops after the city. *)
Definition row_new_york : gmap string pyval :=
  weather_row (PStr "New York") (PStr "US") (PFloat f15_3) (PInt 72)
    (PStr "clear sky").

Definition row_paris : gmap string pyval :=
  weather_row (PStr "Paris") (PStr "FR") (PFloat f15_3) (PInt 40) PNone.

Definition three_rows : string :=
  "City,Country,Temperature (C),Humidity (%),Description" +:+ Str.crlf
  +:+ "New York,US,15.3,72,clear sky" +:+ Str.crlf
  +:+ Str.crlf
  +:+ String Str.DQUOTE ("Paris, Texas" +:+ String Str.DQUOTE ",US,30.1,20,hot")
  +:+ Str.crlf
  +:+ "Oslo" +:+ Str.crlf.

Definition empty_world : world :=
  World None [] [] (fun _ _ => TransportError "") ∅.

Definition world_with_file (text : string) : world :=
  World None [] [] (fun _ _ => TransportError "") (<[CSV_FILE := text]> ∅).

(** A response whose body is a sequence. *)
Definition not_found_sequence : http_reply := Response 404 (Some (PList [])).

(** A world: no key in the environment, a key and a city typed in, a
    service that answers every request with [reply], no files. *)
Definition world_with (reply : http_reply) : world :=
  World None ["secret"; "  new   york"] [] (fun _ _ => reply) ∅.

End Sample.

(** * Properties *)

(** ** Characters *)

Module StrFacts.
Import Str.

Ltac by_cases_on c := destruct c as [[] [] [] [] [] [] [] []]; vm_compute; intuition congruence.

Lemma isspace_upper c : isspace (upper c) = isspace c.
Proof. by_cases_on c. Qed.

Lemma isspace_lower c : isspace (lower c) = isspace c.
Proof. by_cases_on c. Qed.

Lemma upper_space c : isspace c = true -> upper c = c.
Proof. by_cases_on c. Qed.

Lemma lower_space c : isspace c = true -> lower c = c.
Proof. by_cases_on c. Qed.

Lemma isupper_upper c : isupper (upper c) = iscased c.
Proof. by_cases_on c. Qed.

Lemma islower_upper c : iscased c = false -> islower (upper c) = false.
Proof. by_cases_on c. Qed.

Lemma islower_lower c : islower (lower c) = iscased c.
Proof. by_cases_on c. Qed.

Lemma isupper_lower c : isupper (lower c) = false.
Proof. by_cases_on c. Qed.

Lemma space_is_space : isspace SPACE = true.
Proof. reflexivity. Qed.

(** ** strip and split *)

Lemma all_space_lstrip s : all_space (lstrip s) = all_space s.
Proof.
  induction s as [|c s IH]; simpl; [reflexivity|].
  destruct (isspace c) eqn:E; simpl; [exact IH | now rewrite E].
Qed.

Lemma rstrip_empty s : rstrip s = "" -> all_space s = true.
Proof.
  induction s as [|c s IH]; simpl; [reflexivity|].
  destruct (rstrip s) eqn:R; [|discriminate].
  destruct (isspace c); [intros _; now apply IH | discriminate].
Qed.

Lemma all_space_rstrip s : all_space (rstrip s) = all_space s.
Proof.
  induction s as [|c s IH]; simpl; [reflexivity|].
  destruct (rstrip s) as [|d t] eqn:R.
  - rewrite (rstrip_empty s R).
    destruct (isspace c) eqn:E; simpl; [reflexivity | now rewrite E].
  - change (all_space (String c (String d t))) with (isspace c && all_space (String d t)).
    now rewrite IH.
Qed.

Lemma all_space_strip s : all_space (strip s) = all_space s.
Proof. unfold strip. now rewrite all_space_rstrip, all_space_lstrip. Qed.

Lemma strip_nonempty s : all_space s = false -> nonempty (strip s) = true.
Proof.
  intros H. rewrite <- all_space_strip in H.
  destruct (strip s); [discriminate | reflexivity].
Qed.

Lemma split_starts_with_space s :
  starts_with_space s = true -> forall c, isspace c = false ->
  split (String c s) = String c "" :: split s.
Proof. intros H c Hc. simpl. now rewrite Hc, H. Qed.

Lemma split_words s : Forall word (split s).
Proof.
  induction s as [|c s IH]; simpl; [constructor|].
  destruct (isspace c) eqn:E; [exact IH|].
  assert (Hc : word (String c "")) by (split; simpl; [reflexivity | now rewrite E]).
  destruct (starts_with_space s); [now constructor|].
  destruct (split s) as [|w ws]; [now constructor|].
  inversion IH as [|? ? [Hw1 Hw2] Hws]; subst. constructor; [|exact Hws].
  split; simpl; [reflexivity | now rewrite E, Hw2].
Qed.

Lemma split_nonempty s : all_space s = false -> split s <> [].
Proof.
  induction s as [|c s IH]; simpl; [discriminate|].
  destruct (isspace c); simpl; [exact IH | intros _].
  destruct (starts_with_space s); [discriminate|].
  destruct (split s); discriminate.
Qed.

(** ** join *)

Lemma nonempty_append s t : nonempty s = true -> nonempty (s +:+ t) = true.
Proof. destruct s; [discriminate | reflexivity]. Qed.

Lemma starts_word_append w t :
  word w -> starts_with_space (w +:+ t) = false.
Proof.
  intros [H1 H2]. destruct w as [|c w]; [discriminate|]. simpl in *.
  now destruct (isspace c).
Qed.

Lemma ends_append w t :
  nonempty t = true -> ends_with_space (w +:+ t) = ends_with_space t.
Proof.
  intros Ht. induction w as [|c w IH]; [reflexivity|].
  change (String c w +:+ t) with (String c (w +:+ t)).
  destruct (w +:+ t) eqn:E.
  - destruct w; [change ("" +:+ t) with t in E; subst t; discriminate Ht | discriminate E].
  - exact IH.
Qed.

Lemma ends_word w : word w -> ends_with_space w = false.
Proof.
  intros [H1 H2]. induction w as [|c w IH]; [discriminate|].
  simpl in H2. destruct (isspace c) eqn:E; [discriminate|]. simpl in H2.
  destruct w as [|d w]; [exact E|]. now apply IH.
Qed.

Lemma space_run_word_append w t :
  no_space w = true ->
  has_space_run (w +:+ t) = has_space_run t.
Proof.
  induction w as [|c w IH]; [reflexivity|]. simpl. intros H.
  destruct (isspace c); [discriminate|]. now apply IH.
Qed.

Lemma blank_word_append w t :
  no_space w = true ->
  spaces_are_blank (w +:+ t) = spaces_are_blank t.
Proof.
  induction w as [|c w IH]; [reflexivity|]. simpl. intros H.
  destruct (isspace c); [discriminate|]. now apply IH.
Qed.

Lemma space_run_word w : no_space w = true -> has_space_run w = false.
Proof.
  induction w as [|c w IH]; [reflexivity|]. simpl. intros H.
  destruct (isspace c); [discriminate|]. now apply IH.
Qed.

Lemma blank_word w : no_space w = true -> spaces_are_blank w = true.
Proof.
  induction w as [|c w IH]; [reflexivity|]. simpl. intros H.
  destruct (isspace c); [discriminate|]. now apply IH.
Qed.

Lemma join_cons sep w v ws :
  join sep (w :: v :: ws) = w +:+ sep +:+ join sep (v :: ws).
Proof. reflexivity. Qed.

Lemma join_words ws :
  Forall word ws -> ws <> [] ->
  let j := join " " ws in
  nonempty j = true /\ starts_with_space j = false /\ ends_with_space j = false
  /\ has_space_run j = false /\ spaces_are_blank j = true.
Proof.
  induction 1 as [|w ws Hw Hws IH]; [congruence|]. intros _.
  destruct ws as [|v ws].
  - simpl. destruct Hw as [H1 H2]. repeat split; auto.
    + destruct w as [|c w]; [discriminate|]. simpl in *. now destruct (isspace c).
    + now apply ends_word.
    + now apply space_run_word.
    + now apply blank_word.
  - destruct IH as (I1 & I2 & I3 & I4 & I5); [discriminate|].
    rewrite join_cons. cbv zeta. set (j := join " " (v :: ws)) in *.
    destruct Hw as [H1 H2]. repeat split.
    + now apply nonempty_append.
    + now apply starts_word_append.
    + rewrite ends_append; [|reflexivity].
      change (" " +:+ j) with (String SPACE j).
      destruct j; [discriminate | exact I3].
    + rewrite space_run_word_append by exact H2.
      change (" " +:+ j) with (String SPACE j). simpl. now rewrite I2, I4.
    + rewrite blank_word_append by exact H2.
      change (" " +:+ j) with (String SPACE j). simpl. exact I5.
Qed.

(** ** ASCII text *)

Lemma letter2_ascii c d : is_ascii_char c = true -> letter2 c d = None.
Proof.
  destruct c as [[] [] [] [] [] [] [] []]; intros H;
    (reflexivity || (vm_compute in H; discriminate H)).
Qed.

Lemma is_ascii_upper c : is_ascii_char (upper c) = is_ascii_char c.
Proof. by_cases_on c. Qed.

Lemma is_ascii_lower c : is_ascii_char (lower c) = is_ascii_char c.
Proof. by_cases_on c. Qed.

Lemma is_ascii_cons c s :
  is_ascii (String c s) = true -> is_ascii_char c = true /\ is_ascii s = true.
Proof. cbn [is_ascii]. apply andb_prop. Qed.

Lemma is_ascii_append s t : is_ascii (s +:+ t) = is_ascii s && is_ascii t.
Proof.
  induction s as [|c s IH]; [reflexivity|].
  change (String c s +:+ t) with (String c (s +:+ t)). cbn [is_ascii].
  now rewrite IH, andb_assoc.
Qed.




Lemma is_ascii_split s :
  is_ascii s = true -> Forall (fun w => is_ascii w = true) (split s).
Proof.
  induction s as [|c s IH]; [constructor|]. intros H.
  apply is_ascii_cons in H as [Hc Hs]. specialize (IH Hs). cbn [split].
  assert (H1 : is_ascii (String c "") = true) by (cbn [is_ascii]; now rewrite Hc).
  destruct (isspace c); [exact IH|].
  destruct (starts_with_space s); [now constructor|].
  destruct (split s) as [|w ws]; [now constructor|].
  inversion IH as [|? ? Hw Hws]; subst. constructor; [|exact Hws].
  cbn [is_ascii]. now rewrite Hc, Hw.
Qed.

Lemma is_ascii_join ws :
  Forall (fun w => is_ascii w = true) ws -> is_ascii (join " " ws) = true.
Proof.
  induction 1 as [|w ws Hw Hws IH]; [reflexivity|].
  destruct ws as [|v ws]; [exact Hw|].
  rewrite join_cons, !is_ascii_append, Hw, IH. reflexivity.
Qed.

(** ** title *)

(** On an ASCII character [title] and the scan of [istitle] go one
    character at a time. *)
Lemma title_from_ascii p c s :
  is_ascii_char c = true ->
  title_from p (String c s)
  = String (if p then lower c else upper c) (title_from (iscased c) s).
Proof.
  intros H. destruct s as [|d s]; [reflexivity|].
  change (title_from p (String c (String d s)))
    with (match letter2 c d with
          | Some (Upper, lowered) =>
              (if p then lowered else String c (String d "")) +:+ title_from true s
          | Some (Lower, titled) =>
              (if p then String c (String d "") else titled) +:+ title_from true s
          | None =>
              String (if p then lower c else upper c)
                     (title_from (iscased c) (String d s))
          end).
  now rewrite (letter2_ascii c d H).
Qed.

Lemma titlecased_from_ascii p c s :
  is_ascii_char c = true ->
  titlecased_from p (String c s)
  = if isupper c then negb p && titlecased_from true s
    else if islower c then p && titlecased_from true s
    else titlecased_from false s.
Proof.
  intros H. destruct s as [|d s].
  - cbn. now rewrite !andb_true_r.
  - change (titlecased_from p (String c (String d s)))
      with (match letter2 c d with
            | Some (Upper, _) => negb p && titlecased_from true s
            | Some (Lower, _) => p && titlecased_from true s
            | None =>
                if isupper c then negb p && titlecased_from true (String d s)
                else if islower c then p && titlecased_from true (String d s)
                else titlecased_from false (String d s)
            end).
    now rewrite (letter2_ascii c d H).
Qed.

Lemma is_ascii_title p s : is_ascii s = true -> is_ascii (title_from p s) = true.
Proof.
  revert p. induction s as [|c s IH]; intros p H; [reflexivity|].
  apply is_ascii_cons in H as [Hc Hs]. rewrite (title_from_ascii p c s Hc).
  cbn [is_ascii]. rewrite (IH _ Hs), andb_true_r.
  now destruct p; rewrite ?is_ascii_lower, ?is_ascii_upper.
Qed.

Lemma title_nonempty p s :
  is_ascii s = true -> nonempty (title_from p s) = nonempty s.
Proof.
  destruct s as [|c s]; [reflexivity|]. intros H.
  apply is_ascii_cons in H as [Hc _]. now rewrite (title_from_ascii p c s Hc).
Qed.

Lemma title_starts p s :
  is_ascii s = true -> starts_with_space (title_from p s) = starts_with_space s.
Proof.
  destruct s as [|c s]; [reflexivity|]. intros H.
  apply is_ascii_cons in H as [Hc _]. rewrite (title_from_ascii p c s Hc).
  cbn [starts_with_space]. destruct p; [apply isspace_lower | apply isspace_upper].
Qed.

Lemma title_ends p s :
  is_ascii s = true -> ends_with_space (title_from p s) = ends_with_space s.
Proof.
  revert p. induction s as [|c s IH]; intros p H; [reflexivity|].
  apply is_ascii_cons in H as [Hc Hs]. rewrite (title_from_ascii p c s Hc).
  destruct s as [|d s].
  - cbn. destruct p; [apply isspace_lower | apply isspace_upper].
  - specialize (IH (iscased c) Hs).
    pose proof (title_nonempty (iscased c) (String d s) Hs) as Hne.
    destruct (title_from (iscased c) (String d s)); [discriminate Hne | exact IH].
Qed.

Lemma title_space_run p s :
  is_ascii s = true -> has_space_run (title_from p s) = has_space_run s.
Proof.
  revert p. induction s as [|c s IH]; intros p H; [reflexivity|].
  apply is_ascii_cons in H as [Hc Hs]. rewrite (title_from_ascii p c s Hc).
  cbn [has_space_run]. rewrite (title_starts _ s Hs), (IH _ Hs).
  now destruct p; rewrite ?isspace_lower, ?isspace_upper.
Qed.

Lemma title_blank p s :
  is_ascii s = true ->
  spaces_are_blank s = true -> spaces_are_blank (title_from p s) = true.
Proof.
  revert p. induction s as [|c s IH]; intros p Ha; [reflexivity|].
  apply is_ascii_cons in Ha as [Hc Hs]. rewrite (title_from_ascii p c s Hc).
  cbn [spaces_are_blank]. intros H. apply andb_prop in H as [H1 H2].
  rewrite (IH _ Hs H2), andb_true_r.
  destruct (isspace c) eqn:E.
  - now destruct p; rewrite ?(lower_space c E), ?(upper_space c E), E.
  - now destruct p; rewrite ?isspace_lower, ?isspace_upper, E.
Qed.

Lemma title_is_titlecased p s :
  is_ascii s = true -> titlecased_from p (title_from p s) = true.
Proof.
  revert p. induction s as [|c s IH]; intros p H; [reflexivity|].
  apply is_ascii_cons in H as [Hc Hs]. rewrite (title_from_ascii p c s Hc).
  destruct p.
  - rewrite titlecased_from_ascii by now rewrite is_ascii_lower.
    rewrite isupper_lower, islower_lower.
    destruct (iscased c); [cbn [andb]|]; now apply IH.
  - rewrite titlecased_from_ascii by now rewrite is_ascii_upper.
    rewrite isupper_upper. destruct (iscased c) eqn:E; [cbn [negb andb]; now apply IH|].
    rewrite (islower_upper c E). now apply IH.
Qed.

End StrFacts.

(** ** prompt_city *)

Section PromptCity.
Import Str StrFacts.

Lemma lstrip_all_space s : all_space s = true -> lstrip s = "".
Proof.
  induction s as [|c s IH]; simpl; [reflexivity|].
  destruct (isspace c); [exact IH | discriminate].
Qed.

Lemma strip_all_space s : all_space s = true -> strip s = "".
Proof. intros H. unfold strip. now rewrite (lstrip_all_space s H). Qed.

(** The normalization of an ASCII text with a visible character. *)
Lemma normalized_shape raw :
  is_ascii raw = true ->
  all_space raw = false ->
  let city := normalized raw in
  nonempty city = true /\ titlecased city = true
  /\ starts_with_space city = false /\ ends_with_space city = false
  /\ has_space_run city = false /\ spaces_are_blank city = true.
Proof.
  intros Ha H. unfold normalized, title, titlecased.
  destruct (join_words (split raw) (split_words raw) (split_nonempty raw H))
    as (J1 & J2 & J3 & J4 & J5).
  pose proof (is_ascii_join _ (is_ascii_split raw Ha)) as Hj.
  rewrite (title_nonempty _ _ Hj), (title_starts _ _ Hj), (title_ends _ _ Hj),
    (title_space_run _ _ Hj), (title_is_titlecased _ _ Hj).
  repeat split; auto using title_blank.
Qed.





Example prompt_city_new_york :
  normalized (strip "  new   york") = "New York".
Proof. reflexivity. Qed.

Example prompt_city_muenchen :
  normalized (strip " münchen ") = "München" /\ titlecased "München" = true.
Proof. split; reflexivity. Qed.

End PromptCity.

(** ** Numbers *)

Section Numbers.

Lemma round_half_even_nearest (n : Z) (d : positive) :
  (0 <= n)%Z ->
  let k := round_half_even n d in
  (0 <= k)%Z /\ (2 * Z.abs (n - k * Zpos d) <= Zpos d)%Z.
Proof.
  intros Hn. unfold round_half_even.
  pose proof (Z.div_mod n (Zpos d) ltac:(lia)) as Hdm.
  pose proof (Z.mod_pos_bound n (Zpos d) ltac:(lia)) as Hr.
  assert (Hq : (0 <= n / Zpos d)%Z) by (apply Z.div_pos; lia).
  destruct (Z.compare_spec (2 * (n mod Zpos d)) (Zpos d)) as [E|E|E];
    [destruct (Z.even (n / Zpos d))| |]; cbv zeta; split; nia.
Qed.

(** [int] of a finite float is the quotient, truncated towards zero, of
    its exact value. *)
Lemma trunc_float_truncation (f : spec_float) :
  is_finite f = true ->
  trunc_float f = Ret (truncation (PFloat f)).
Proof.
  destruct f as [s|s| |s m e]; try discriminate; intros _;
    unfold truncation, number_fraction, float_fraction, trunc_float.
  - reflexivity.
  - f_equal. destruct e as [|p|p].
    + rewrite Z.quot_1_r. simpl. now rewrite Z.mul_1_r.
    + rewrite Z.quot_1_r, Z.shiftl_mul_pow2 by lia. reflexivity.
    + change (Z.shiftl (Z.pos m) (Z.neg p)) with (Z.shiftr (Z.pos m) (Z.pos p)).
      rewrite Z.shiftr_div_pow2 by lia. rewrite Pos2Z.inj_pow.
      assert (0 < 2 ^ Z.pos p)%Z by (apply Z.pow_pos_nonneg; lia).
      destruct s; simpl cond_Zopp.
      * rewrite Z.quot_opp_l by lia. rewrite Z.quot_div_nonneg by lia. reflexivity.
      * rewrite Z.quot_div_nonneg by lia. reflexivity.
Qed.

(** [round(x, 1)] of a finite float is the float nearest to [k / 10], for
    the integer [k] nearest to ten times the magnitude of [x]. *)
Lemma py_round1_nearest_tenth (s : bool) (m : positive) (e : Z) :
  exists k : Z,
    py_round1 (S754_finite s m e) = float_of_tenths s k
    /\ (0 <= k)%Z
    /\ let '(n, d) := float_fraction (S754_finite false m e) in
       (2 * Z.abs (10 * n - k * Zpos d) <= Zpos d)%Z.
Proof.
  unfold py_round1.
  destruct (float_fraction (S754_finite false m e)) as [n d] eqn:E.
  exists (round_half_even (10 * n) d). split; [reflexivity|].
  apply round_half_even_nearest.
  unfold float_fraction in E. destruct e; inversion E; simpl; lia.
Qed.

Lemma round_half_even_tie (n : Z) (d : positive) :
  (0 <= n)%Z ->
  let k := round_half_even n d in
  (2 * Z.abs (n - k * Zpos d) = Zpos d)%Z -> Z.even k = true.
Proof.
  intros Hn. unfold round_half_even.
  pose proof (Z.div_mod n (Zpos d) ltac:(lia)) as Hdm.
  pose proof (Z.mod_pos_bound n (Zpos d) ltac:(lia)) as Hr.
  destruct (Z.compare_spec (2 * (n mod Zpos d)) (Zpos d)) as [E|E|E]; cbv zeta.
  - destruct (Z.even (n / Zpos d)) eqn:Ev; [intros _; exact Ev|].
    intros _. rewrite Z.even_add, Ev. reflexivity.
  - intros H. exfalso. nia.
  - intros H. exfalso. nia.
Qed.

(** [round(x, 1)] rounds to one decimal place. *)
Lemma py_round1_rounded (x : spec_float) : rounded_to_tenth x (py_round1 x).
Proof.
  destruct x as [s|s| |s m e]; try reflexivity.
  unfold rounded_to_tenth, py_round1.
  destruct (float_fraction (S754_finite false m e)) as [n d] eqn:E.
  assert (Hn : (0 <= 10 * n)%Z).
  { unfold float_fraction in E. destruct e; inversion E; simpl; lia. }
  exists (round_half_even (10 * n) d). split; [reflexivity|].
  destruct (round_half_even_nearest (10 * n) d Hn) as [Hk Hb].
  split; [exact Hk|]. split; [exact Hb|].
  exact (round_half_even_tie (10 * n) d Hn).
Qed.

(** The quotient that rounds towards zero truncates. *)
Lemma truncation_truncated (v : pyval) : truncated v (truncation v).
Proof.
  unfold truncated, truncation. destruct (number_fraction v) as [n d].
  assert (Hpos : forall a : Z, (0 <= a)%Z ->
            (0 <= Z.quot a (Zpos d)
             /\ Z.quot a (Zpos d) * Zpos d <= a
                < (Z.quot a (Zpos d) + 1) * Zpos d)%Z).
  { intros a Ha. pose proof (Z.quot_rem' a (Zpos d)) as Hqr.
    pose proof (Z.rem_bound_pos a (Zpos d) Ha ltac:(lia)).
    pose proof (Z.quot_pos a (Zpos d) Ha ltac:(lia)). nia. }
  destruct (Z.le_gt_cases 0 n) as [Hn | Hn].
  - specialize (Hpos n Hn). destruct Hpos as (Hq & Hlo & Hhi).
    rewrite (Z.abs_eq n Hn), (Z.abs_eq _ Hq). repeat split; [exact Hlo | exact Hhi | nia].
  - specialize (Hpos (- n)%Z ltac:(lia)). destruct Hpos as (Hq & Hlo & Hhi).
    assert (Hz : Z.quot n (Zpos d) = (- Z.quot (- n) (Zpos d))%Z).
    { rewrite Z.quot_opp_l by lia. lia. }
    rewrite Hz, Z.abs_opp, (Z.abs_eq _ Hq), (Z.abs_neq n) by lia.
    repeat split; [exact Hlo | exact Hhi | nia].
Qed.

End Numbers.

(** ** parse_weather *)

Section ParseWeather.
Context {B : Builtins}.

Lemma empty_of_size_0 (d : gmap string pyval) (k : string) :
  Nat.eqb (size d) 0 = true -> d !! k = None.
Proof.
  intros H. apply Nat.eqb_eq in H. apply map_size_empty_inv in H.
  subst. apply lookup_empty.
Qed.

(** [(obj or {}).get(key, dflt)] for a mapping that may be missing. *)
Lemma get_or_empty (o : option pyval) (key : string) (dflt : pyval) :
  mapping_or_missing o = true ->
  py_get (py_or (default PNone o) (PDict ∅)) key dflt
  = Ret (match o with
         | Some (PDict d) => default dflt (d !! key)
         | _ => dflt
         end).
Proof.
  destruct o as [[| | | | | |d]|]; try discriminate; intros _; try reflexivity.
  unfold py_or. simpl. destruct (Nat.eqb (size d) 0) eqn:E; simpl.
  - now rewrite (empty_of_size_0 d key E).
  - reflexivity.
Qed.

Lemma py_float_temperature (t : pyval) :
  is_temperature t = true -> py_float t = Ret (as_float t).
Proof.
  destruct t; try discriminate; simpl; [|reflexivity].
  now destruct (float_of_Z z).
Qed.

Lemma py_int_humidity (h : pyval) :
  is_humidity h = true -> py_int h = Ret (truncation h).
Proof.
  destruct h; try discriminate; simpl.
  - intros _. unfold truncation. simpl. now rewrite Z.quot_1_r.
  - apply trunc_float_truncation.
Qed.

(** What [parse_weather] computes on a response whose fields [sys], [main]
    and [weather] are each missing or of the expected kind. *)
Lemma parse_weather_spec (data : gmap string pyval) :
  mapping_or_missing (data !! "sys") = true ->
  mapping_or_missing (data !! "main") = true ->
  weather_or_missing (data !! "weather") = true ->
  parse_weather (PDict data)
  = if missing (main_field data "temp") || missing (main_field data "humidity")
    then Raise (ValueError MISSING_FIELDS)
    else
      temperature ← py_float (default PNone (main_field data "temp"));
      humidity ← py_int (default PNone (main_field data "humidity"));
      Ret (weather_row (city_of data) (country_of data)
             (PFloat (py_round1 temperature)) (PInt humidity)
             (description_of data)).
Proof.
  intros Hsys Hmain Hweather. unfold parse_weather.
  change (py_get (PDict data) "name" (PStr "Unknown")) with (Ret (city_of data)).
  change (py_get (PDict data) "sys" PNone) with (Ret (default PNone (data !! "sys"))).
  change (py_get (PDict data) "main" PNone) with (Ret (default PNone (data !! "main"))).
  change (py_get (PDict data) "weather" PNone) with (Ret (default PNone (data !! "weather"))).
  cbn [mbind res_bind].
  rewrite (get_or_empty _ "country" _ Hsys). cbn [mbind res_bind].
  rewrite (get_or_empty _ "temp" _ Hmain). cbn [mbind res_bind].
  rewrite (get_or_empty _ "humidity" _ Hmain). cbn [mbind res_bind].
  assert (Hd :
    (if truthy (py_or (default PNone (data !! "weather")) (PList []))
     then first ← py_index0 (py_or (default PNone (data !! "weather")) (PList []));
          py_get first "description" PNone
     else Ret (PStr ""))
    = Ret (match data !! "weather" with
           | Some (PList (PDict first :: _)) => default PNone (first !! "description")
           | _ => PStr ""
           end)).
  { destruct (data !! "weather") as [[| | | | |[|[] l]|]|]; try discriminate; reflexivity. }
  rewrite Hd. cbn [mbind res_bind]. clear Hd.
  assert (Ht : is_none (match data !! "main" with
                        | Some (PDict d) => default PNone (d !! "temp")
                        | _ => PNone end)
               = missing (main_field data "temp")).
  { unfold main_field. destruct (data !! "main") as [[| | | | | |d]|]; try reflexivity.
    destruct (d !! "temp") as [[]|]; reflexivity. }
  assert (Hh : is_none (match data !! "main" with
                        | Some (PDict d) => default PNone (d !! "humidity")
                        | _ => PNone end)
               = missing (main_field data "humidity")).
  { unfold main_field. destruct (data !! "main") as [[| | | | | |d]|]; try reflexivity.
    destruct (d !! "humidity") as [[]|]; reflexivity. }
  rewrite Ht, Hh. clear Ht Hh.
  destruct (missing (main_field data "temp") || missing (main_field data "humidity"));
    [reflexivity|].
  assert (Hm : forall key,
    match data !! "main" with
    | Some (PDict d) => default PNone (d !! key)
    | _ => PNone end = default PNone (main_field data key)).
  { intros key. unfold main_field.
    destruct (data !! "main") as [[| | | | | |d]|]; reflexivity. }
  rewrite !Hm.
  assert (Hc : match data !! "sys" with
               | Some (PDict d) => default (PStr "—") (d !! "country")
               | _ => PStr "—" end = country_of data).
  { unfold country_of, sys_country.
    destruct (data !! "sys") as [[| | | | | |d]|]; reflexivity. }
  assert (Hdesc : py_or (match data !! "weather" with
                         | Some (PList (PDict first :: _)) =>
                             default PNone (first !! "description")
                         | _ => PStr "" end) (PStr "n/a") = description_of data).
  { unfold description_of, first_description, description_or_na.
    destruct (data !! "weather") as [[| | | | |[|[] l]|]|]; try reflexivity.
    destruct (d !! "description") as [v|]; reflexivity. }
  rewrite Hc, Hdesc. reflexivity.
Qed.

(** The row for readings that are numbers: the temperature rounded to one
    decimal place, the humidity truncated towards zero. *)
Lemma parse_weather_numbers (data : gmap string pyval) (temp humidity : pyval) :
  mapping_or_missing (data !! "sys") = true ->
  mapping_or_missing (data !! "main") = true ->
  weather_or_missing (data !! "weather") = true ->
  main_field data "temp" = Some temp ->
  main_field data "humidity" = Some humidity ->
  is_temperature temp = true ->
  is_humidity humidity = true ->
  exists (t : spec_float) (z : Z),
    parse_weather (PDict data)
    = Ret (weather_row (city_of data) (country_of data) (PFloat t) (PInt z)
             (description_of data))
    /\ rounded_to_tenth (as_float temp) t
    /\ truncated humidity z.
Proof.
  intros Hsys Hmain Hweather Htemp Hhum Ht Hh.
  rewrite (parse_weather_spec data Hsys Hmain Hweather), Htemp, Hhum.
  assert (missing (Some temp) = false) as -> by (destruct temp; done).
  assert (missing (Some humidity) = false) as -> by (destruct humidity; done).
  cbn [orb default from_option id].
  rewrite (py_float_temperature temp Ht). cbn [mbind res_bind].
  rewrite (py_int_humidity humidity Hh). cbn [mbind res_bind].
  exists (py_round1 (as_float temp)), (truncation humidity).
  split; [reflexivity|]. split; [apply py_round1_rounded | apply truncation_truncated].
Qed.

(** C1, as amended. On a response that has a name, a country under
    [sys], a temperature and a humidity under [main] that are numbers, and a
    non-empty description in the first element of [weather],
    [parse_weather] returns the row with the name as City, the country as
    Country, the temperature rounded to one decimal place as Temperature
    (C) (the float nearest to [k / 10] for the integer [k] nearest to ten
    times the reading, ties to the even [k]), the humidity truncated
    towards zero to an integer as Humidity (%), and the description as
    Description. *)
Theorem parse_weather_valid (data sys main first : gmap string pyval)
    (name country temp humidity description : pyval) (rest : list pyval) :
  data !! "name" = Some name ->
  data !! "sys" = Some (PDict sys) ->
  sys !! "country" = Some country ->
  data !! "main" = Some (PDict main) ->
  main !! "temp" = Some temp ->
  main !! "humidity" = Some humidity ->
  data !! "weather" = Some (PList (PDict first :: rest)) ->
  first !! "description" = Some description ->
  truthy description = true ->
  is_temperature temp = true ->
  is_humidity humidity = true ->
  exists (t : spec_float) (z : Z),
    parse_weather (PDict data)
    = Ret (weather_row name country (PFloat t) (PInt z) description)
    /\ rounded_to_tenth (as_float temp) t
    /\ truncated humidity z.
Proof.
  intros Hname Hsys Hcountry Hmain Htemp Hhum Hweather Hdesc Htruthy Ht Hh.
  destruct (parse_weather_numbers data temp humidity) as (t & z & Hrow & Hr & Hz);
    try assumption;
    try (rewrite ?Hsys, ?Hmain, ?Hweather; reflexivity);
    try (unfold main_field; now rewrite Hmain).
  exists t, z. split; [|split; assumption].
  rewrite Hrow. unfold city_of, country_of, description_of, sys_country,
    first_description, description_or_na.
  now rewrite Hname, Hsys, Hcountry, Hweather, Hdesc, Htruthy.
Qed.


End ParseWeather.

Lemma parse_weather_valid_witness :
  exists (t : spec_float) (z : Z),
    parse_weather (B := Sample.builtins) (PDict Sample.new_york)
    = Ret (weather_row (PStr "New York") (PStr "US") (PFloat t) (PInt z)
             (PStr "clear sky"))
    /\ rounded_to_tenth (as_float (PFloat Sample.f15_34)) t
    /\ truncated (PInt 72) z.
Proof.
  apply (parse_weather_valid (B := Sample.builtins) Sample.new_york
           (<["country" := PStr "US"]> ∅)
           (<["temp" := PFloat Sample.f15_34]> (<["humidity" := PInt 72]> ∅))
           (<["description" := PStr "clear sky"]> ∅)
           (PStr "New York") (PStr "US") (PFloat Sample.f15_34) (PInt 72)
           (PStr "clear sky") []);
    reflexivity.
Defined.


(** A temperature that is there but is a sequence: the response of New
    York with [[15.34]] for [15.34]. *)
Lemma parse_weather_temperature_list :
  parse_weather (B := Sample.builtins)
    (PDict (<["main" := PDict (<["temp" := PList [PFloat Sample.f15_34]]>
                              (<["humidity" := PInt 72]> ∅))]>
            Sample.new_york))
  = Raise TypeError.
Proof. reflexivity. Qed.


Example parse_weather_infinite_humidity :
  parse_weather (B := Sample.builtins)
    (PDict (<["main" := PDict (<["temp" := PInt 15]>
                              (<["humidity" := PFloat (S754_infinity false)]> ∅))]> ∅))
  = Raise OverflowError.
Proof. reflexivity. Qed.

(** A country that is there but null is passed on as [None]. *)
Example parse_weather_null_country :
  parse_weather (B := Sample.builtins)
    (PDict (<["sys" := PDict (<["country" := PNone]> ∅)]> Sample.readings_only))
  = Ret (weather_row (PStr "Unknown") PNone (PFloat (float_of_Z 15)) (PInt 72)
           (PStr "n/a")).
Proof. vm_compute. reflexivity. Qed.

Example new_york_numbers :
  py_round1 Sample.f15_34 = Sample.f15_3 /\ truncation (PFloat Sample.f72_9) = 72%Z.
Proof. split; vm_compute; reflexivity. Qed.

(** A tie goes to the even tenth: [round(0.25, 1)] is [0.2]. *)
Example round_quarter :
  py_round1 (S754_finite false 4503599627370496 (-54))
  = S754_finite false 7205759403792794 (-55).
Proof. vm_compute. reflexivity. Qed.

(** ** fetch_weather *)

Section FetchWeather.
Context {B : Builtins}.

(** With status 200 the data is returned: the decoded body, or the empty
    mapping for a body that does not decode. *)
Lemma fetch_weather_200 (w : world) (city api_key : string) (json : option pyval) :
  http w city api_key = Response 200 json ->
  fetch_weather city api_key w = (Ret (default (PDict ∅) json), w).
Proof. intros H. unfold fetch_weather. now rewrite H. Qed.

(** C6. On a response with status 200 whose body decodes, [fetch_weather]
    returns the decoded body as it is, and changes nothing. *)
Theorem fetch_weather_ok (w : world) (city api_key : string) (body : pyval) :
  http w city api_key = Response 200 (Some body) ->
  fetch_weather city api_key w = (Ret body, w).
Proof. intros H. exact (fetch_weather_200 w city api_key (Some body) H). Qed.

(** C4, as amended. With status 401 [fetch_weather] fails with the error
    for an invalid key, whatever the body.  With status 404 and a body
    that decodes to a mapping it fails with the not-found error whose text
    ends with the field [message] of the body, or with "City not found."
    when the body has no such field; with status 404 and a body that does
    not decode it fails with the not-found error for "City not found.". *)
Theorem fetch_weather_errors (w : world) (city api_key : string)
    (status_code : Z) (json : option pyval) :
  http w city api_key = Response status_code json ->
  (status_code = 401%Z ->
   fetch_weather city api_key w
   = (Raise (ValueError "Unauthorized (401): Invalid or missing API key."), w))
  /\ (status_code = 404%Z ->
      forall body : gmap string pyval, json = Some (PDict body) ->
      fetch_weather city api_key w
      = (Raise (ValueError
                  ("Not found (404): "
                   +:+ py_str (default (PStr "City not found.") (body !! "message")))),
         w))
  /\ (status_code = 404%Z -> json = None ->
      fetch_weather city api_key w
      = (Raise (ValueError "Not found (404): City not found."), w)).
Proof.
  intros H. unfold fetch_weather. rewrite H.
  repeat split; intros ->; [reflexivity | intros body -> | intros ->]; reflexivity.
Qed.

End FetchWeather.

Lemma fetch_weather_ok_witness :
  fetch_weather (B := Sample.builtins) "New York" "secret"
    (Sample.world_with (Response 200 (Some (PDict Sample.new_york))))
  = (Ret (PDict Sample.new_york),
     Sample.world_with (Response 200 (Some (PDict Sample.new_york)))).
Proof.
  apply (fetch_weather_ok (B := Sample.builtins)
           (Sample.world_with (Response 200 (Some (PDict Sample.new_york))))
           "New York" "secret" (PDict Sample.new_york)).
  reflexivity.
Defined.

Lemma fetch_weather_errors_witness :
  fetch_weather (B := Sample.builtins) "Nowhere" "secret"
    (Sample.world_with
       (Response 404 (Some (PDict (<["message" := PStr "city not found"]> ∅)))))
  = (Raise (ValueError "Not found (404): city not found"),
     Sample.world_with
       (Response 404 (Some (PDict (<["message" := PStr "city not found"]> ∅))))).
Proof.
  rewrite (proj1 (proj2 (fetch_weather_errors (B := Sample.builtins)
             (Sample.world_with
                (Response 404 (Some (PDict (<["message" := PStr "city not found"]> ∅)))))
             "Nowhere" "secret" 404
             (Some (PDict (<["message" := PStr "city not found"]> ∅)))
             eq_refl))
           eq_refl (<["message" := PStr "city not found"]> ∅) eq_refl).
  reflexivity.
Defined.

(** A 404 response whose body decodes to a sequence: the lookup of the
    message fails with an attribute error, not with the not-found error. *)
Lemma fetch_weather_404_sequence :
  fetch_weather (B := Sample.builtins) "Nowhere" "secret"
    (Sample.world_with Sample.not_found_sequence)
  = (Raise AttributeError, Sample.world_with Sample.not_found_sequence)
  /\ ~ (exists msg w',
          fetch_weather (B := Sample.builtins) "Nowhere" "secret"
            (Sample.world_with Sample.not_found_sequence)
          = (Raise (ValueError msg), w')).
Proof.
  split; [reflexivity|]. intros (msg & w' & H). discriminate H.
Qed.

(** ** Running stateful computations *)

Section Monad.
Context {S : Type}.

Lemma bind_ret {A C} (m : ST S A) (f : A -> ST S C) (s s' : S) (a : A) :
  m s = (Ret a, s') -> (m ≫= f) s = f a s'.
Proof. intros H. unfold mbind, ST_bind. now rewrite H. Qed.

Lemma bind_raise {A C} (m : ST S A) (f : A -> ST S C) (s s' : S) (e : exn) :
  m s = (Raise e, s') -> (m ≫= f) s = (Raise e, s').
Proof. intros H. unfold mbind, ST_bind. now rewrite H. Qed.

End Monad.

Lemma append_cons (x : ascii) (a b : string) :
  String x a +:+ b = String x (a +:+ b).
Proof. reflexivity. Qed.

Lemma append_assoc (a b c : string) : (a +:+ b) +:+ c = a +:+ (b +:+ c).
Proof.
  induction a as [|x a IH]; [reflexivity|].
  now rewrite !append_cons, IH.
Qed.

Lemma append_empty_r (a : string) : a +:+ "" = a.
Proof.
  induction a as [|x a IH]; [reflexivity|].
  now rewrite append_cons, IH.
Qed.

Lemma append_nonempty (a b : string) : a <> "" -> a +:+ b <> "".
Proof. destruct a; [congruence | discriminate]. Qed.

Lemma length_0_empty (a : string) : Nat.eqb (String.length a) 0 = false <-> a <> "".
Proof. destruct a; simpl; split; congruence. Qed.

Lemma set_fs_set_fs f g w : set_fs f (set_fs g w) = set_fs f w.
Proof. reflexivity. Qed.

Lemma set_fs_same w : set_fs (fs w) w = w.
Proof. now destruct w. Qed.

(** ** write_row_to_csv *)

Section Write.
Context {B : Builtins}.

Lemma filter_negb_forallb {A} (P : A -> bool) (l : list A) :
  forallb P l = true -> List.filter (fun x => negb (P x)) l = [].
Proof.
  induction l as [|x l IH]; [reflexivity|]. simpl. intros H.
  apply andb_prop in H as [H1 H2]. rewrite H1. simpl. now apply IH.
Qed.

Lemma dict_to_list_record (row : gmap string pyval) :
  record_keys row = true ->
  dict_to_list CSV_HEADERS row
  = Ret (map (fun key => default (PStr "") (row !! key)) CSV_HEADERS).
Proof.
  intros H. unfold dict_to_list.
  now rewrite (filter_negb_forallb _ _ H).
Qed.

Lemma writerow_record (row : gmap string pyval) (buf : string) :
  record_keys row = true ->
  writerow CSV_HEADERS row buf = (Ret tt, buf +:+ row_line row).
Proof.
  intros H. unfold writerow, lift, file_write, mbind, ST_bind.
  rewrite (dict_to_list_record row H). unfold row_line.
  now rewrite map_map.
Qed.

Lemma writeheader_line (buf : string) :
  writeheader CSV_HEADERS buf = (Ret tt, buf +:+ header_line).
Proof. reflexivity. Qed.

(** The first row written to a file that is absent or empty. *)
Lemma write_row_to_csv_fresh (row : gmap string pyval) (p : Path) (w : world) :
  fs w !! p = None \/ fs w !! p = Some "" ->
  record_keys row = true ->
  write_row_to_csv row p w
  = (Ret tt, set_fs (<[p := header_line +:+ row_line row]> (fs w)) w).
Proof.
  intros Hf Hr.
  unfold write_row_to_csv, path_exists, st_size, with_open_append,
    mbind, ST_bind, mret, ST_ret.
  destruct Hf as [Hf | Hf]; repeat (rewrite Hf; simpl);
    rewrite (writeheader_line ""), (writerow_record row _ Hr);
    repeat (rewrite Hf; simpl); reflexivity.
Qed.

(** A row written to a file that has content. *)
Lemma write_row_to_csv_append (row : gmap string pyval) (p : Path) (w : world)
    (content : string) :
  fs w !! p = Some content -> content <> "" ->
  record_keys row = true ->
  write_row_to_csv row p w
  = (Ret tt, set_fs (<[p := content +:+ row_line row]> (fs w)) w).
Proof.
  intros Hf Hc Hr.
  unfold write_row_to_csv, path_exists, st_size, with_open_append,
    mbind, ST_bind, mret, ST_ret.
  apply length_0_empty in Hc.
  repeat (rewrite ?Hf, ?Hc; simpl).
  rewrite (writerow_record row _ Hr). reflexivity.
Qed.

Lemma write_rows_append (rows : list (gmap string pyval)) (p : Path) (w : world)
    (content : string) :
  fs w !! p = Some content -> content <> "" ->
  Forall (fun row => record_keys row = true) rows ->
  write_rows rows p w
  = (Ret tt, set_fs (<[p := content +:+ row_lines rows]> (fs w)) w).
Proof.
  intros Hf Hc Hrows. revert w content Hf Hc.
  induction Hrows as [|row rows Hr Hrows IH]; intros w content Hf Hc.
  - simpl. rewrite append_empty_r, (insert_id _ _ _ Hf). now rewrite set_fs_same.
  - simpl. rewrite (bind_ret _ _ _ _ _ (write_row_to_csv_append row p w content Hf Hc Hr)).
    rewrite (IH _ (content +:+ row_line row)).
    + simpl. rewrite set_fs_set_fs, insert_insert_eq, append_assoc. reflexivity.
    + simpl. apply lookup_insert_eq.
    + now apply append_nonempty.
Qed.

Lemma header_line_nonempty (t : string) : header_line +:+ t <> "".
Proof. discriminate. Qed.

(** C3, as amended. Writing one row or more, each with keys among the
    columns, to a file that is absent or empty leaves the file with the
    header line followed by the lines of the rows in the order written; a
    row written to a file that has content is appended after that content,
    which stays as it is, and no header is written. *)
Theorem write_rows_header_once (p : Path) :
  (forall (w : world) (row : gmap string pyval) (rows : list (gmap string pyval)),
     fs w !! p = None \/ fs w !! p = Some "" ->
     Forall (fun r => record_keys r = true) (row :: rows) ->
     write_rows (row :: rows) p w
     = (Ret tt,
        set_fs (<[p := header_line +:+ row_lines (row :: rows)]> (fs w)) w))
  /\ (forall (w : world) (content : string) (row : gmap string pyval),
        fs w !! p = Some content -> content <> "" ->
        record_keys row = true ->
        write_row_to_csv row p w
        = (Ret tt, set_fs (<[p := content +:+ row_line row]> (fs w)) w)).
Proof.
  split.
  - intros w row rows Hf Hrows. inversion Hrows as [|? ? Hr Hrest]; subst.
    simpl. rewrite (bind_ret _ _ _ _ _ (write_row_to_csv_fresh row p w Hf Hr)).
    rewrite (write_rows_append rows p _ (header_line +:+ row_line row)).
    + simpl. rewrite set_fs_set_fs, insert_insert_eq, append_assoc. reflexivity.
    + simpl. apply lookup_insert_eq.
    + apply header_line_nonempty.
    + exact Hrest.
  - intros w content row. apply write_row_to_csv_append.
Qed.

End Write.

Lemma write_rows_header_once_witness :
  write_rows (B := Sample.builtins) [Sample.row_new_york; Sample.row_paris]
    CSV_FILE Sample.empty_world
  = (Ret tt,
     set_fs (<[CSV_FILE := header_line
                           +:+ row_lines (B := Sample.builtins)
                                 [Sample.row_new_york; Sample.row_paris]]> ∅)
            Sample.empty_world).
Proof.
  apply (proj1 (write_rows_header_once (B := Sample.builtins) CSV_FILE)
           Sample.empty_world Sample.row_new_york [Sample.row_paris]).
  - left. reflexivity.
  - repeat constructor.
Defined.

(** No call at all: the file is still absent, it has no header line. *)
Lemma write_rows_none_no_header :
  write_rows (B := Sample.builtins) [] CSV_FILE Sample.empty_world
  = (Ret tt, Sample.empty_world)
  /\ fs (snd (write_rows (B := Sample.builtins) [] CSV_FILE Sample.empty_world))
       !! CSV_FILE
     <> Some (header_line +:+ row_lines (B := Sample.builtins) []).
Proof. split; [reflexivity | discriminate]. Qed.

Example header_line_text :
  header_line
  = "City,Country,Temperature (C),Humidity (%),Description" +:+ Str.crlf.
Proof. reflexivity. Qed.

Example row_line_new_york :
  row_line (B := Sample.builtins) Sample.row_new_york
  = "New York,US,15.3,72,clear sky" +:+ Str.crlf.
Proof. reflexivity. Qed.

(** A row with a key that is not a column is refused, after the header
    has been written to the new file. *)
Example write_row_extra_key :
  write_row_to_csv (B := Sample.builtins) (<["Wind" := PInt 3]> Sample.row_paris)
    CSV_FILE Sample.empty_world
  = (Raise (ValueError "dict contains fields not in fieldnames"),
     set_fs (<[CSV_FILE := header_line]> ∅) Sample.empty_world).
Proof. reflexivity. Qed.

(** ** read_and_report *)

Section Report.
Context {B : Builtins}.

Lemma print_all_out (lines : list string) (w : world) :
  print_all lines w
  = (Ret tt, set_stdout (stdout w ++ map (fun l => l +:+ Str.nl) lines) w).
Proof.
  revert w. induction lines as [|l lines IH]; intros w.
  - simpl. rewrite app_nil_r. now destruct w.
  - simpl. unfold mbind, ST_bind, print at 1. rewrite IH. simpl.
    now rewrite <- app_assoc.
Qed.

(** The mapping [DictReader] builds, read at a column. *)
Lemma reader_row_from (col : string) (fieldnames row : list string)
    (m : gmap (option string) pyval) :
  foldl (fun m key => <[Some key := PNone]> m)
        (foldl (fun m kv => <[Some (fst kv) := PStr (snd kv)]> m) m
               (zip fieldnames row))
        (drop (length row) fieldnames)
    !! Some col
  = match column col fieldnames row with
    | Some cell => Some (cell_value cell)
    | None => m !! Some col
    end.
Proof.
  revert row m. induction fieldnames as [|name names IH]; intros row m.
  - simpl. now rewrite drop_nil.
  - destruct row as [|c row].
    + specialize (IH [] (<[Some name := PNone]> m)).
      assert (Hz : zip names (@nil string) = []) by now destruct names.
      rewrite Hz in IH.
      change (foldl (fun m key => <[Some key := PNone]> m)
                    (<[Some name := PNone]> m) names !! Some col
              = match column col names [] with
                | Some cell => Some (cell_value cell)
                | None => <[Some name := PNone]> m !! Some col
                end) in IH.
      change (foldl (fun m key => <[Some key := PNone]> m)
                    (<[Some name := PNone]> m) names !! Some col
              = match column col (name :: names) [] with
                | Some cell => Some (cell_value cell)
                | None => m !! Some col
                end).
      rewrite IH. simpl.
      destruct (column col names []) as [cell|]; [reflexivity|].
      destruct (String.eqb_spec name col) as [->|Hne].
      * apply lookup_insert_eq.
      * apply lookup_insert_ne. congruence.
    + specialize (IH row (<[Some name := PStr c]> m)). simpl in *. rewrite IH.
      destruct (column col names row) as [cell|]; [reflexivity|].
      destruct (String.eqb_spec name col) as [->|Hne].
      * apply lookup_insert_eq.
      * apply lookup_insert_ne. congruence.
Qed.

Lemma reader_row_lookup (col : string) (fieldnames row : list string) :
  reader_row fieldnames row !! Some col
  = cell_value <$> column col fieldnames row.
Proof.
  pose proof (reader_row_from col fieldnames row ∅) as H.
  rewrite lookup_empty in H. unfold reader_row.
  destruct (Nat.ltb (length fieldnames) (length row)) eqn:E1.
  - rewrite lookup_insert_ne by discriminate.
    apply Nat.ltb_lt in E1. rewrite drop_ge in H by lia. simpl in H.
    rewrite H. now destruct (column col fieldnames row).
  - destruct (Nat.ltb (length row) (length fieldnames)) eqn:E2.
    + rewrite H. now destruct (column col fieldnames row).
    + apply Nat.ltb_ge in E1, E2. rewrite drop_ge in H by lia. simpl in H.
      rewrite H. now destruct (column col fieldnames row).
Qed.

(** The line printed for a row of the file. *)
Lemma report_line_text (fieldnames row : list string) :
  report_line (reader_row fieldnames row)
  = " - " +:+ column_text "City" "Unknown" fieldnames row +:+ ": "
    +:+ column_text "Temperature (C)" "n/a" fieldnames row +:+ "°C".
Proof.
  unfold report_line, column_text. rewrite !reader_row_lookup.
  destruct (column "City" fieldnames row) as [[c|]|];
    destruct (column "Temperature (C)" fieldnames row) as [[t|]|]; reflexivity.
Qed.

Lemma read_and_report_rows (p : Path) (w : world) (text : string) :
  fs w !! p = Some text -> text <> "" ->
  read_and_report p w
  = match dict_reader_rows text with
    | Raise e => (Raise e, w)
    | Ret [] => print NOTHING_TO_REPORT w
    | Ret rows =>
        (Ret tt,
         set_stdout
           (stdout w
            ++ ("Entries in " +:+ path_name p +:+ ": " +:+ pretty (length rows)
                +:+ Str.nl)
            :: map (fun r => report_line r +:+ Str.nl) rows) w)
    end.
Proof.
  intros Hf Hne. apply length_0_empty in Hne.
  unfold read_and_report, path_exists, st_size, read_text, lift, mbind, ST_bind,
    mret, ST_ret.
  repeat (rewrite ?Hf, ?Hne; simpl).
  destruct (dict_reader_rows text) as [[|r rows]|e]; try reflexivity.
  rewrite print_all_out. simpl.
  rewrite map_map, <- app_assoc, !append_assoc. reflexivity.
Qed.

(** C8. When the file is absent or has no content, [read_and_report]
    prints "No CSV data to report yet." and nothing else, returns
    normally whatever a reader would make of the file, and a program that
    ends there exits with status 0. *)
Theorem read_and_report_nothing (p : Path) (w : world) :
  fs w !! p = None \/ fs w !! p = Some "" ->
  read_and_report p w
  = (Ret tt, set_stdout (stdout w ++ [NOTHING_TO_REPORT +:+ Str.nl]) w)
  /\ exit_status (fst (read_and_report p w)) = 0%Z.
Proof.
  intros Hf.
  assert (H : read_and_report p w
              = (Ret tt, set_stdout (stdout w ++ [NOTHING_TO_REPORT +:+ Str.nl]) w)).
  { unfold read_and_report, path_exists, st_size, mbind, ST_bind, mret, ST_ret.
    destruct Hf as [Hf | Hf]; repeat (rewrite Hf; simpl); reflexivity. }
  now rewrite H.
Qed.

(** C9. When the file has content and the records after its first one
    (the header) are all empty, as in a file that holds the header line
    only or the header line and blank lines, [read_and_report] prints
    "No CSV data to report yet." and returns. *)
Theorem read_and_report_header_only (p : Path) (w : world) (text : string)
    (recs : list (list string)) :
  fs w !! p = Some text -> text <> "" ->
  Csv.reader_rows text = Ret recs ->
  data_rows (tail recs) = [] ->
  read_and_report p w
  = (Ret tt, set_stdout (stdout w ++ [NOTHING_TO_REPORT +:+ Str.nl]) w).
Proof.
  intros Hf Hne Hrecs Hblank.
  rewrite (read_and_report_rows p w text Hf Hne).
  unfold dict_reader_rows. rewrite Hrecs. cbn [mbind res_bind].
  destruct recs as [|fieldnames rest]; [reflexivity|].
  unfold data_rows in Hblank. simpl in Hblank. now rewrite Hblank.
Qed.

(** X21. When the file has content, its first record is the header and
    [N >= 1] of the records after it are not empty, [read_and_report]
    prints the line "Entries in <name>: N" and then, for each of these [N]
    rows in the order of the file, one line " - <city>: <temp>°C" with the
    values of the row under the columns City and Temperature (C).  A row
    is the mapping from the names of the header: when the header has no
    such column the mapping lacks it and the line shows the placeholder,
    "Unknown" for the city and "n/a" for the temperature; when the row is
    too short to reach a column of the header the mapping binds it to
    [None], which is shown as "None". *)
Theorem read_and_report_lists_rows (p : Path) (w : world) (text : string)
    (fieldnames : list string) (recs : list (list string)) :
  fs w !! p = Some text -> text <> "" ->
  Csv.reader_rows text = Ret (fieldnames :: recs) ->
  data_rows recs <> [] ->
  read_and_report p w
  = (Ret tt,
     set_stdout
       (stdout w
        ++ ("Entries in " +:+ path_name p +:+ ": "
            +:+ pretty (length (data_rows recs)) +:+ Str.nl)
        :: map (fun row =>
                  " - " +:+ column_text "City" "Unknown" fieldnames row +:+ ": "
                  +:+ column_text "Temperature (C)" "n/a" fieldnames row
                  +:+ "°C" +:+ Str.nl)
               (data_rows recs))
       w).
Proof.
  intros Hf Hne Hrecs Hrows.
  rewrite (read_and_report_rows p w text Hf Hne).
  unfold dict_reader_rows. rewrite Hrecs. cbn [mbind res_bind].
  fold (data_rows recs).
  destruct (data_rows recs) as [|row rows] eqn:E; [congruence|].
  assert (Hline : forall r,
    report_line (reader_row fieldnames r) +:+ Str.nl
    = " - " +:+ column_text "City" "Unknown" fieldnames r +:+ ": "
      +:+ column_text "Temperature (C)" "n/a" fieldnames r +:+ "°C" +:+ Str.nl).
  { intros r. now rewrite report_line_text, !append_assoc. }
  rewrite length_map, map_map. cbn [map].
  now rewrite Hline, (map_ext _ _ Hline).
Qed.

End Report.

Lemma read_and_report_nothing_witness :
  read_and_report (B := Sample.builtins) CSV_FILE Sample.empty_world
  = (Ret tt,
     set_stdout (stdout Sample.empty_world ++ [NOTHING_TO_REPORT +:+ Str.nl])
                Sample.empty_world)
  /\ exit_status
       (fst (read_and_report (B := Sample.builtins) CSV_FILE Sample.empty_world))
     = 0%Z.
Proof.
  apply (read_and_report_nothing (B := Sample.builtins) CSV_FILE Sample.empty_world).
  left. reflexivity.
Defined.

Lemma read_and_report_header_only_witness :
  read_and_report (B := Sample.builtins) CSV_FILE (Sample.world_with_file header_line)
  = (Ret tt,
     set_stdout (stdout (Sample.world_with_file header_line)
                 ++ [NOTHING_TO_REPORT +:+ Str.nl])
                (Sample.world_with_file header_line)).
Proof.
  apply (read_and_report_header_only (B := Sample.builtins) CSV_FILE
           (Sample.world_with_file header_line) header_line [CSV_HEADERS]).
  - reflexivity.
  - discriminate.
  - vm_compute. reflexivity.
  - reflexivity.
Defined.

Lemma read_and_report_lists_rows_witness :
  read_and_report (B := Sample.builtins) CSV_FILE
    (Sample.world_with_file Sample.three_rows)
  = (Ret tt,
     set_stdout
       [ "Entries in city_data.csv: 3" +:+ Str.nl;
         " - New York: 15.3°C" +:+ Str.nl;
         " - Paris, Texas: 30.1°C" +:+ Str.nl;
         " - Oslo: None°C" +:+ Str.nl ]
       (Sample.world_with_file Sample.three_rows)).
Proof.
  rewrite (read_and_report_lists_rows (B := Sample.builtins) CSV_FILE
             (Sample.world_with_file Sample.three_rows) Sample.three_rows
             CSV_HEADERS
             [ ["New York"; "US"; "15.3"; "72"; "clear sky"];
               [];
               ["Paris, Texas"; "US"; "30.1"; "20"; "hot"];
               ["Oslo"] ]).
  - reflexivity.
  - reflexivity.
  - discriminate.
  - vm_compute. reflexivity.
  - discriminate.
Defined.

(** C7. A row too short to reach the column Temperature (C): the file
    of the header line and of a line with the single cell Oslo.
    [DictReader] binds the columns such a row does not reach to [None], so
    that the default of [r.get] is not used: the line of the row shows
    "None" where the placeholder "n/a" was meant. *)
Theorem read_and_report_short_row :
  read_and_report (B := Sample.builtins) CSV_FILE
    (Sample.world_with_file (header_line +:+ "Oslo" +:+ Str.crlf))
  = (Ret tt,
     set_stdout
       [ "Entries in city_data.csv: 1" +:+ Str.nl;
         " - Oslo: None°C" +:+ Str.nl ]
       (Sample.world_with_file (header_line +:+ "Oslo" +:+ Str.crlf))).
Proof. vm_compute. reflexivity. Qed.

(** A header without the two columns: the substitutes are shown. *)
Example report_without_columns :
  read_and_report (B := Sample.builtins) CSV_FILE
    (Sample.world_with_file ("Name" +:+ Str.crlf +:+ "Oslo" +:+ Str.crlf))
  = (Ret tt,
     set_stdout
       [ "Entries in city_data.csv: 1" +:+ Str.nl;
         " - Unknown: n/a°C" +:+ Str.nl ]
       (Sample.world_with_file ("Name" +:+ Str.crlf +:+ "Oslo" +:+ Str.crlf))).
Proof. vm_compute. reflexivity. Qed.

(** ** main *)

Section Main.
Context {B : Builtins}.

Lemma get_api_key_fs (w : world) : fs (snd (get_api_key w)) = fs w.
Proof.
  unfold get_api_key, getenv_key, print, input, sys_exit, raise,
    mbind, ST_bind, mret, ST_ret.
  destruct (environ w) as [k|]; simpl;
    [destruct (Str.nonempty k && Str.nonempty (Str.strip k)); simpl; [reflexivity|]|];
    (destruct (stdin w) as [|l rest]; simpl; [reflexivity|];
     destruct (Str.nonempty (Str.strip l)); reflexivity).
Qed.

Lemma prompt_city_fs (w : world) : fs (snd (prompt_city w)) = fs w.
Proof.
  unfold prompt_city. now destruct (prompt_city_loop (stdin w)) as [[r l] out].
Qed.

(** C2, as amended. Let the response be a mapping in which [sys], [main]
    and [weather] are each absent, null or of the expected kind, and in
    which the temperature or the humidity under [main] is absent or null.
    Then [parse_weather] fails with the error for missing readings; and
    once the key and the city are obtained and the service answers 200
    with that mapping, [main] prints that error after "Error: ", exits
    with status 1 and leaves every file as it was. *)
Theorem missing_readings_reported (w w1 w2 : world) (api_key city : string)
    (data : gmap string pyval) :
  mapping_or_missing (data !! "sys") = true ->
  mapping_or_missing (data !! "main") = true ->
  weather_or_missing (data !! "weather") = true ->
  missing (main_field data "temp") || missing (main_field data "humidity") = true ->
  get_api_key w = (Ret api_key, w1) ->
  prompt_city w1 = (Ret city, w2) ->
  http w2 city api_key = Response 200 (Some (PDict data)) ->
  parse_weather (PDict data) = Raise (ValueError MISSING_FIELDS)
  /\ main w
     = (Raise (SystemExit 1),
        set_stdout (stdout w2 ++ [("Error: " +:+ MISSING_FIELDS) +:+ Str.nl]) w2)
  /\ exit_status (fst (main w)) = 1%Z
  /\ fs (snd (main w)) = fs w.
Proof.
  intros Hsys Hmain Hweather Hmiss Hkey Hcity Hhttp.
  assert (Hparse : parse_weather (PDict data) = Raise (ValueError MISSING_FIELDS)).
  { rewrite (parse_weather_spec data Hsys Hmain Hweather). now rewrite Hmiss. }
  assert (Hrun : main w
     = (Raise (SystemExit 1),
        set_stdout (stdout w2 ++ [("Error: " +:+ MISSING_FIELDS) +:+ Str.nl]) w2)).
  { unfold main.
    rewrite (bind_ret _ _ _ _ _ Hkey), (bind_ret _ _ _ _ _ Hcity).
    apply bind_raise. unfold try_except_ValueError.
    rewrite (bind_ret _ _ _ _ _ (fetch_weather_200 w2 city api_key _ Hhttp)).
    unfold lift, default. cbn [from_option id]. rewrite Hparse. reflexivity. }
  split; [exact Hparse|]. split; [exact Hrun|]. rewrite Hrun. split; [reflexivity|].
  simpl. pose proof (get_api_key_fs w) as H1. pose proof (prompt_city_fs w1) as H2.
  rewrite Hkey in H1. rewrite Hcity in H2. simpl in H1, H2. congruence.
Qed.

End Main.

Lemma missing_readings_reported_witness :
  parse_weather (B := Sample.builtins) (PDict Sample.no_readings)
  = Raise (ValueError MISSING_FIELDS)
  /\ main (B := Sample.builtins)
       (Sample.world_with (Response 200 (Some (PDict Sample.no_readings))))
     = (Raise (SystemExit 1),
        World None []
          [ "No OPENWEATHER_API_KEY found in environment." +:+ Str.nl;
            "Enter your OpenWeatherMap API key: ";
            "Enter a city name: ";
            ("Error: " +:+ MISSING_FIELDS) +:+ Str.nl ]
          (fun _ _ => Response 200 (Some (PDict Sample.no_readings))) ∅)
  /\ exit_status
       (fst (main (B := Sample.builtins)
               (Sample.world_with (Response 200 (Some (PDict Sample.no_readings))))))
     = 1%Z
  /\ fs (snd (main (B := Sample.builtins)
                (Sample.world_with (Response 200 (Some (PDict Sample.no_readings))))))
     = ∅.
Proof.
  apply (missing_readings_reported (B := Sample.builtins)
           (Sample.world_with (Response 200 (Some (PDict Sample.no_readings))))
           (World None ["  new   york"]
              [ "No OPENWEATHER_API_KEY found in environment." +:+ Str.nl;
                "Enter your OpenWeatherMap API key: " ]
              (fun _ _ => Response 200 (Some (PDict Sample.no_readings))) ∅)
           (World None []
              [ "No OPENWEATHER_API_KEY found in environment." +:+ Str.nl;
                "Enter your OpenWeatherMap API key: ";
                "Enter a city name: " ]
              (fun _ _ => Response 200 (Some (PDict Sample.no_readings))) ∅)
           "secret" "New York" Sample.no_readings);
    reflexivity.
Defined.

(** A response whose [sys] is a number and that has no readings: the
    lookup of the country fails with an attribute error before the
    readings are looked at; [main] does not catch it, prints no line that
    starts with "Error:" and writes no file. *)
Lemma parse_weather_sys_number :
  missing (main_field Sample.sys_is_number "temp") = true
  /\ parse_weather (B := Sample.builtins) (PDict Sample.sys_is_number)
     = Raise AttributeError
  /\ parse_weather (B := Sample.builtins) (PDict Sample.sys_is_number)
     <> Raise (ValueError MISSING_FIELDS)
  /\ main (B := Sample.builtins)
       (Sample.world_with (Response 200 (Some (PDict Sample.sys_is_number))))
     = (Raise AttributeError,
        World None []
          [ "No OPENWEATHER_API_KEY found in environment." +:+ Str.nl;
            "Enter your OpenWeatherMap API key: ";
            "Enter a city name: " ]
          (fun _ _ => Response 200 (Some (PDict Sample.sys_is_number))) ∅).
Proof. repeat split; try reflexivity. discriminate. Qed.

(** The run of the example in the specification: the summary is printed,
    the file gets its header and the row, the report lists the row. *)
Example main_new_york :
  main (B := Sample.builtins)
    (Sample.world_with (Response 200 (Some (PDict Sample.new_york))))
  = (Ret tt,
     World None []
       [ "No OPENWEATHER_API_KEY found in environment." +:+ Str.nl;
         "Enter your OpenWeatherMap API key: ";
         "Enter a city name: ";
         (Str.nl +:+ "Weather for New York, US: clear sky | Temp: 15.3°C | Humidity: 72%"
          +:+ Str.nl) +:+ Str.nl;
         "Entries in city_data.csv: 1" +:+ Str.nl;
         " - New York: 15.3°C" +:+ Str.nl ]
       (fun _ _ => Response 200 (Some (PDict Sample.new_york)))
       (<[CSV_FILE := ("City,Country,Temperature (C),Humidity (%),Description"
                       +:+ Str.crlf)
                      +:+ "New York,US,15.3,72,clear sky" +:+ Str.crlf]> ∅)).
Proof. vm_compute. reflexivity. Qed.

(** * More of the program *)

(** ** The csv writer and reader: a round trip *)

Module CsvFacts.
Import Str Csv CsvStream.

Lemma run_line (l : string) (toks : list (option ascii)) (r : reader) :
  run (chars_some l ++ None :: toks) r
  = r' ← parse_line l r;
    match state r' with
    | START_RECORD => rest ← run toks parse_reset; Ret (fields r' :: rest)
    | _ => run toks r'
    end.
Proof.
  revert r. induction l as [|c l IH]; intros r.
  - reflexivity.
  - simpl. destruct (parse_process_char (Some c) r) as [r'|e]; [|reflexivity].
    cbn [mbind res_bind]. apply IH.
Qed.

Lemma records_run (lines : list string) (r : reader) :
  records lines r = run (tokens_of_lines lines) r.
Proof.
  revert r. induction lines as [|l ls IH]; intros r.
  - reflexivity.
  - cbn [tokens_of_lines records]. rewrite run_line.
    destruct (parse_line l r) as [r'|e]; [|reflexivity].
    cbn [mbind res_bind]. rewrite IH.
    destruct (state r'); try apply IH. reflexivity.
Qed.

Lemma file_lines_nil (text : string) : file_lines text = [] -> text = "".
Proof.
  destruct text as [|c s]; [reflexivity|]. simpl.
  destruct (Ascii.eqb c LF); [discriminate|].
  destruct (Ascii.eqb c CR).
  - destruct s as [|d s']; [discriminate|]. destruct (Ascii.eqb d LF); discriminate.
  - destruct (file_lines s); discriminate.
Qed.

Lemma tokens_file_lines (text : string) :
  tokens_of_lines (file_lines text) = tokens text.
Proof.
  induction text as [|c s IH]; [reflexivity|].
  cbn [file_lines tokens].
  destruct (Ascii.eqb c LF) eqn:ELF.
  - cbn. now rewrite IH.
  - destruct (Ascii.eqb c CR) eqn:ECR.
    + destruct s as [|d s']; [reflexivity|].
      cbn [starts_with_LF]. destruct (Ascii.eqb d LF) eqn:EdLF.
      * cbn [tokens] in *. rewrite EdLF in *.
        cbn [file_lines] in IH. rewrite EdLF in IH.
        cbn in IH. cbn. congruence.
      * cbn. cbn in IH. now rewrite IH.
    + destruct (file_lines s) as [|l ls] eqn:EL.
      * apply file_lines_nil in EL. subst s. reflexivity.
      * destruct s as [|d s']; [discriminate|].
        cbn [tokens_of_lines chars_some app]. cbn [tokens_of_lines] in IH.
        now rewrite <- IH.
Qed.

Lemma reader_rows_run (text : string) :
  reader_rows text = run (tokens text) parse_reset.
Proof. unfold reader_rows. now rewrite records_run, tokens_file_lines. Qed.


(** *** Steps of the reader *)

Lemma length_append (a b : string) :
  String.length (a +:+ b) = String.length a + String.length b.
Proof.
  induction a as [|x a IH]; [reflexivity|].
  rewrite append_cons. cbn [String.length]. now rewrite IH.
Qed.

Lemma append_snoc (a : string) (c : ascii) (b : string) :
  (a +:+ String c "") +:+ b = a +:+ String c b.
Proof. now rewrite append_assoc. Qed.

Lemma add_char_fits (c : ascii) (st : parser_state) (f : string) (fs : list string) :
  field_fits (f +:+ String c "") = true ->
  parse_add_char c (Reader st f fs) = Ret (Reader st (f +:+ String c "") fs).
Proof.
  unfold field_fits, parse_add_char. cbn [field state fields].
  rewrite length_append. cbn [String.length]. intros H.
  apply N.leb_le in H.
  destruct (N.leb_spec field_size_limit (N.of_nat (String.length f))); [lia|reflexivity].
Qed.

Lemma fits_prefix (a b : string) : field_fits (a +:+ b) = true -> field_fits a = true.
Proof.
  unfold field_fits. rewrite length_append. intros H.
  apply N.leb_le in H. apply N.leb_le. lia.
Qed.

Lemma tokens_plain (c : ascii) (s : string) :
  Ascii.eqb c LF = false -> Ascii.eqb c CR = false -> s <> "" ->
  tokens (String c s) = Some c :: tokens s.
Proof. intros H1 H2 Hs. cbn [tokens]. rewrite H1, H2. now destruct s. Qed.

Lemma special_false (c : ascii) :
  special c = false ->
  Ascii.eqb c COMMA = false /\ Ascii.eqb c DQUOTE = false
  /\ Ascii.eqb c CR = false /\ Ascii.eqb c LF = false.
Proof.
  unfold special. intros H.
  destruct (Ascii.eqb c COMMA), (Ascii.eqb c DQUOTE), (Ascii.eqb c CR),
    (Ascii.eqb c LF); try discriminate. auto.
Qed.

(** Inside quotes every character but the quote is kept, line ends
    included. *)
Lemma step_quoted (c : ascii) (s f : string) (fs : list string) :
  Ascii.eqb c DQUOTE = false -> s <> "" ->
  field_fits (f +:+ String c "") = true ->
  run (tokens (String c s)) (Reader IN_QUOTED_FIELD f fs)
  = run (tokens s) (Reader IN_QUOTED_FIELD (f +:+ String c "") fs).
Proof.
  intros Hq Hs Hfit. cbn [tokens run].
  unfold parse_process_char at 1. cbn [state]. rewrite Hq.
  rewrite (add_char_fits c _ f fs Hfit). cbn [mbind res_bind].
  destruct (Ascii.eqb c LF).
  - reflexivity.
  - destruct (Ascii.eqb c CR).
    + destruct (starts_with_LF s); reflexivity.
    + now destruct s.
Qed.

Lemma step_doubled_quote (s f : string) (fs : list string) :
  s <> "" ->
  field_fits (f +:+ String DQUOTE "") = true ->
  run (tokens (String DQUOTE (String DQUOTE s))) (Reader IN_QUOTED_FIELD f fs)
  = run (tokens s) (Reader IN_QUOTED_FIELD (f +:+ String DQUOTE "") fs).
Proof.
  intros Hs Hfit.
  rewrite (tokens_plain DQUOTE) by (reflexivity || discriminate).
  rewrite (tokens_plain DQUOTE) by (reflexivity || assumption).
  assert (H1 : parse_process_char (Some DQUOTE) (Reader IN_QUOTED_FIELD f fs)
               = Ret (Reader QUOTE_IN_QUOTED_FIELD f fs)) by reflexivity.
  assert (H2 : parse_process_char (Some DQUOTE) (Reader QUOTE_IN_QUOTED_FIELD f fs)
               = Ret (Reader IN_QUOTED_FIELD (f +:+ String DQUOTE "") fs)).
  { change (parse_process_char (Some DQUOTE) (Reader QUOTE_IN_QUOTED_FIELD f fs))
      with (r' ← parse_add_char DQUOTE (Reader QUOTE_IN_QUOTED_FIELD f fs);
            Ret (set_state IN_QUOTED_FIELD r')).
    now rewrite (add_char_fits DQUOTE _ f fs Hfit). }
  cbn [run]. rewrite H1. cbn [mbind res_bind]. now rewrite H2.
Qed.

Lemma quoted_content (content f : string) (fs : list string) (tail : string) :
  field_fits (f +:+ content) = true ->
  run (tokens (double_quotes content +:+ String DQUOTE tail))
      (Reader IN_QUOTED_FIELD f fs)
  = run (tokens (String DQUOTE tail)) (Reader IN_QUOTED_FIELD (f +:+ content) fs).
Proof.
  revert f. induction content as [|c content IH]; intros f Hfit.
  - now rewrite append_empty_r.
  - rewrite <- (append_snoc f c content) in Hfit |- *.
    pose proof (fits_prefix _ _ Hfit) as Hc.
    cbn [double_quotes]. destruct (Ascii.eqb_spec c DQUOTE) as [->|Hne].
    + change (String DQUOTE (String DQUOTE (double_quotes content)) +:+ String DQUOTE tail)
        with (String DQUOTE (String DQUOTE (double_quotes content +:+ String DQUOTE tail))).
      rewrite step_doubled_quote; [now apply IH | | exact Hc].
      destruct (double_quotes content); discriminate.
    + change (String c (double_quotes content) +:+ String DQUOTE tail)
        with (String c (double_quotes content +:+ String DQUOTE tail)).
      rewrite step_quoted; [now apply IH | | | exact Hc].
      * now apply Ascii.eqb_neq.
      * destruct (double_quotes content); discriminate.
Qed.

Lemma step_closing_quote (tail f : string) (fs : list string) :
  tail <> "" ->
  run (tokens (String DQUOTE tail)) (Reader IN_QUOTED_FIELD f fs)
  = run (tokens tail) (Reader QUOTE_IN_QUOTED_FIELD f fs).
Proof.
  intros Ht. rewrite (tokens_plain DQUOTE) by (reflexivity || assumption).
  reflexivity.
Qed.

(** Outside quotes a character that is not special is kept. *)
Lemma step_unquoted (c : ascii) (s f : string) (fs : list string) :
  special c = false -> s <> "" ->
  field_fits (f +:+ String c "") = true ->
  run (tokens (String c s)) (Reader IN_FIELD f fs)
  = run (tokens s) (Reader IN_FIELD (f +:+ String c "") fs).
Proof.
  intros Hsp Hs Hfit. destruct (special_false c Hsp) as (H1 & H2 & H3 & H4).
  rewrite tokens_plain by assumption. cbn [run].
  unfold parse_process_char at 1. cbn [state]. unfold is_newline.
  rewrite H1, H3, H4. cbn [orb].
  now rewrite (add_char_fits c _ f fs Hfit).
Qed.

Lemma unquoted_content (content f : string) (fs : list string) (tail : string) :
  needs_quotes content = false -> tail <> "" ->
  field_fits (f +:+ content) = true ->
  run (tokens (content +:+ tail)) (Reader IN_FIELD f fs)
  = run (tokens tail) (Reader IN_FIELD (f +:+ content) fs).
Proof.
  revert f. induction content as [|c content IH]; intros f Hq Ht Hfit.
  - now rewrite append_empty_r.
  - rewrite <- (append_snoc f c content) in Hfit |- *.
    cbn [needs_quotes] in Hq. apply orb_false_elim in Hq as [Hc Hq].
    change (String c content +:+ tail) with (String c (content +:+ tail)).
    rewrite step_unquoted; [now apply IH | exact Hc | | exact (fits_prefix _ _ Hfit)].
    destruct content; [exact Ht | discriminate].
Qed.

(** The first character of a field that needs no quotes. *)
Lemma step_first_unquoted (st : parser_state) (c : ascii) (s : string)
    (fs : list string) :
  st = START_RECORD \/ st = START_FIELD ->
  special c = false -> s <> "" ->
  run (tokens (String c s)) (Reader st "" fs)
  = run (tokens s) (Reader IN_FIELD (String c "") fs).
Proof.
  intros Hst Hsp Hs. destruct (special_false c Hsp) as (H1 & H2 & H3 & H4).
  rewrite tokens_plain by assumption. cbn [run].
  assert (Hp : parse_process_char (Some c) (Reader st "" fs)
               = Ret (Reader IN_FIELD (String c "") fs)).
  { destruct Hst as [-> | ->]; unfold parse_process_char, start_field, is_newline;
      cbn [state]; rewrite H1, H2, H3, H4; reflexivity. }
  now rewrite Hp.
Qed.

Lemma step_opening_quote (st : parser_state) (s : string) (fs : list string) :
  st = START_RECORD \/ st = START_FIELD -> s <> "" ->
  run (tokens (String DQUOTE s)) (Reader st "" fs)
  = run (tokens s) (Reader IN_QUOTED_FIELD "" fs).
Proof.
  intros Hst Hs. rewrite (tokens_plain DQUOTE) by (reflexivity || assumption).
  destruct Hst as [-> | ->]; reflexivity.
Qed.

(** *** A field, then what follows it *)

Lemma field_read (st : parser_state) (f : string) (fs : list string) (tail : string) :
  st = START_RECORD \/ st = START_FIELD ->
  tail <> "" -> field_fits f = true ->
  run (tokens (quote_field f +:+ tail)) (Reader st "" fs)
  = run (tokens tail) (after_field st f fs).
Proof.
  intros Hst Ht Hfit. unfold quote_field, after_field.
  destruct (needs_quotes f) eqn:Hq.
  - change (String DQUOTE (double_quotes f +:+ String DQUOTE "") +:+ tail)
      with (String DQUOTE ((double_quotes f +:+ String DQUOTE "") +:+ tail)).
    rewrite append_snoc.
    rewrite step_opening_quote; [| exact Hst | destruct (double_quotes f); discriminate].
    rewrite quoted_content by exact Hfit.
    now apply step_closing_quote.
  - destruct f as [|c f]; [reflexivity|].
    cbn [needs_quotes] in Hq. apply orb_false_elim in Hq as [Hc Hq].
    change (String c f +:+ tail) with (String c (f +:+ tail)).
    rewrite step_first_unquoted; [| exact Hst | exact Hc | destruct f; [exact Ht | discriminate]].
    now apply unquoted_content.
Qed.

Lemma comma_after_field (st : parser_state) (f : string) (fs : list string)
    (more : string) :
  st = START_RECORD \/ st = START_FIELD -> more <> "" ->
  run (tokens (String COMMA more)) (after_field st f fs)
  = run (tokens more) (Reader START_FIELD "" (fs ++ [f])).
Proof.
  intros Hst Hm. rewrite (tokens_plain COMMA) by (reflexivity || assumption).
  unfold after_field. destruct (needs_quotes f); [reflexivity|].
  destruct f; [destruct Hst as [-> | ->]|]; reflexivity.
Qed.

Lemma tokens_crlf (rest : string) :
  tokens (String CR (String LF rest)) = Some CR :: Some LF :: None :: tokens rest.
Proof. reflexivity. Qed.

Lemma crlf_after_field (st : parser_state) (f : string) (fs : list string)
    (rest : string) :
  st = START_FIELD \/ (st = START_RECORD /\ (f <> "" \/ needs_quotes f = true)) ->
  run (tokens (String CR (String LF rest))) (after_field st f fs)
  = rest' ← run (tokens rest) parse_reset; Ret ((fs ++ [f]) :: rest').
Proof.
  intros Hst. rewrite tokens_crlf. unfold after_field.
  destruct (needs_quotes f) eqn:Hq; [reflexivity|].
  destruct f as [|c f]; [|reflexivity].
  destruct Hst as [-> | (-> & [H | H])]; [reflexivity | congruence | discriminate].
Qed.

(** *** Records *)

Lemma join_cons2 (sep w v : string) (ws : list string) :
  join sep (w :: v :: ws) = w +:+ sep +:+ join sep (v :: ws).
Proof. reflexivity. Qed.

Lemma fields_read (fl : list string) :
  Forall (fun f => field_fits f = true) fl -> fl <> [] ->
  forall (st : parser_state) (acc : list string) (rest : string),
    st = START_FIELD \/ (st = START_RECORD /\ fl <> [""]) ->
    run (tokens (join "," (map quote_field fl) +:+ String CR (String LF rest)))
        (Reader st "" acc)
    = rest' ← run (tokens rest) parse_reset; Ret ((acc ++ fl) :: rest').
Proof.
  induction 1 as [|f fl Hf Hfl IH]; [congruence|]. intros _ st acc rest Hst.
  assert (Hst' : st = START_RECORD \/ st = START_FIELD) by (destruct Hst as [|[]]; auto).
  destruct fl as [|g fl].
  - cbn [map join]. rewrite field_read by (assumption || discriminate).
    apply crlf_after_field. destruct Hst as [->|[-> Hne]]; [now left | right].
    split; [reflexivity|]. destruct f; [congruence | left; discriminate].
  - change (map quote_field (f :: g :: fl))
      with (quote_field f :: quote_field g :: map quote_field fl).
    rewrite join_cons2, !append_assoc.
    rewrite field_read by (assumption || discriminate).
    change ("," +:+ join "," (quote_field g :: map quote_field fl)
            +:+ String CR (String LF rest))
      with (String COMMA (join "," (map quote_field (g :: fl))
                          +:+ String CR (String LF rest))).
    rewrite comma_after_field; [| exact Hst' |].
    + rewrite IH by (discriminate || now left).
      now rewrite <- app_assoc.
    + destruct (join "," (map quote_field (g :: fl))); discriminate.
Qed.

Lemma record_read (rec : list string) (rest : string) :
  Forall (fun f => field_fits f = true) rec ->
  run (tokens (format_record rec +:+ rest)) parse_reset
  = rest' ← run (tokens rest) parse_reset; Ret (rec :: rest').
Proof.
  intros Hfit. destruct rec as [|f fl].
  - reflexivity.
  - assert (Hcase : (f :: fl) = [""] \/ (f :: fl) <> [""]).
    { destruct f; [destruct fl|]; (now left) || (right; congruence). }
    destruct Hcase as [E | Hne].
    + inversion E; subst. reflexivity.
    + assert (Hfmt : format_record (f :: fl)
                     = join "," (map quote_field (f :: fl)) +:+ crlf).
      { unfold format_record. destruct f; [destruct fl; [congruence|]|]; reflexivity. }
      rewrite Hfmt, append_assoc.
      change (crlf +:+ rest) with (String CR (String LF rest)).
      apply (fields_read (f :: fl) Hfit ltac:(discriminate) START_RECORD [] rest).
      right. now split.
Qed.

(** What the writer writes, the reader reads back. *)
Lemma records_round_trip (recs : list (list string)) :
  Forall (Forall (fun f => field_fits f = true)) recs ->
  reader_rows (format_records recs) = Ret recs.
Proof.
  intros H. rewrite reader_rows_run. induction H as [|rec recs Hrec Hrecs IH].
  - reflexivity.
  - cbn [format_records]. rewrite (record_read rec _ Hrec), IH. reflexivity.
Qed.

End CsvFacts.

(** ** City names that are already normal *)

Module NormalFacts.
Import Str StrFacts.

Lemma upper_of_upper c : isupper c = true -> upper c = c.
Proof. by_cases_on c. Qed.

Lemma lower_of_lower c : islower c = true -> lower c = c.
Proof. by_cases_on c. Qed.

Lemma upper_uncased c : islower c = false -> upper c = c.
Proof. by_cases_on c. Qed.

Lemma lower_uncased c : isupper c = false -> lower c = c.
Proof. by_cases_on c. Qed.

(** A title-cased ASCII text is left as it is by [title]. *)
Lemma title_of_titlecased (p : bool) (s : string) :
  is_ascii s = true -> titlecased_from p s = true -> title_from p s = s.
Proof.
  revert p. induction s as [|c s IH]; intros p Ha; [reflexivity|].
  apply is_ascii_cons in Ha as [Hc Hs].
  rewrite (titlecased_from_ascii p c s Hc), (title_from_ascii p c s Hc).
  unfold iscased. destruct (isupper c) eqn:U.
  - intros H. apply andb_prop in H as [Hp H]. destruct p; [discriminate|].
    cbn [orb]. now rewrite (upper_of_upper c U), (IH true Hs H).
  - destruct (islower c) eqn:L.
    + intros H. apply andb_prop in H as [Hp H]. destruct p; [|discriminate].
      cbn [orb]. now rewrite (lower_of_lower c L), (IH true Hs H).
    + intros H. cbn [orb]. rewrite (IH false Hs H).
      now destruct p; rewrite ?(lower_uncased c U), ?(upper_uncased c L).
Qed.

Lemma split_all_space (s : string) : all_space s = true -> split s = [].
Proof.
  induction s as [|c s IH]; [reflexivity|]. cbn [all_space split].
  destruct (isspace c); [exact IH | discriminate].
Qed.

Lemma join_push (sep : string) (c : ascii) (w : string) (ws : list string) :
  join sep (String c w :: ws) = String c (join sep (w :: ws)).
Proof. destruct ws; reflexivity. Qed.

Lemma join_split_gen (s : string) :
  ends_with_space s = false -> has_space_run s = false ->
  spaces_are_blank s = true ->
  match s with
  | "" => True
  | String c _ =>
      if isspace c
      then split s <> [] /\ String SPACE (join " " (split s)) = s
      else join " " (split s) = s
  end.
Proof.
  induction s as [|c s IH]; [trivial|]. intros He Hr Hb.
  cbn [has_space_run] in Hr. apply orb_false_elim in Hr as [Hcs Hr].
  cbn [spaces_are_blank] in Hb. apply andb_prop in Hb as [Hc Hb].
  assert (He' : s <> "" -> ends_with_space s = false).
  { intros Hs. destruct s; [congruence | exact He]. }
  cbn [split]. destruct (isspace c) eqn:Ec.
  - cbn [negb orb] in Hc. apply bool_decide_eq_true in Hc. subst c.
    cbn [andb] in Hcs.
    destruct s as [|d s]; [discriminate He|].
    specialize (IH (He' ltac:(discriminate)) Hr Hb).
    cbn [starts_with_space] in Hcs. rewrite Hcs in IH.
    split; [|now rewrite IH].
    apply split_nonempty. cbn [all_space]. now rewrite Hcs.
  - destruct s as [|d s]; [reflexivity|].
    specialize (IH (He' ltac:(discriminate)) Hr Hb).
    cbn [starts_with_space]. destruct (isspace d) eqn:Ed.
    + destruct IH as [Hne IH].
      destruct (split (String d s)) as [|w ws]; [congruence|].
      change (join " " (String c "" :: w :: ws))
        with (String c (String SPACE (join " " (w :: ws)))).
      now rewrite IH.
    + assert (Hne : split (String d s) <> []).
      { apply split_nonempty. cbn [all_space]. now rewrite Ed. }
      destruct (split (String d s)) as [|w ws]; [congruence|].
      rewrite join_push. now rewrite IH.
Qed.

(** A text without outer whitespace whose only whitespace is single
    spaces is the join of its words. *)
Lemma join_split (s : string) :
  starts_with_space s = false -> ends_with_space s = false ->
  has_space_run s = false -> spaces_are_blank s = true ->
  join " " (split s) = s.
Proof.
  intros Hs He Hr Hb. pose proof (join_split_gen s He Hr Hb) as H.
  destruct s as [|c s]; [reflexivity|].
  cbn [starts_with_space] in Hs. now rewrite Hs in H.
Qed.

End NormalFacts.

Section NormalCity.
Import Str StrFacts NormalFacts.

Lemma normalized_blank (raw : string) : all_space raw = true -> normalized raw = "".
Proof. intros H. unfold normalized. now rewrite (split_all_space raw H). Qed.

(** X1. On a text of ASCII characters, normalizing twice gives what
    normalizing once gives. *)
Theorem normalized_idempotent (raw : string) :
  is_ascii raw = true ->
  normalized (normalized raw) = normalized raw.
Proof.
  intros Ha. destruct (all_space raw) eqn:E.
  - now rewrite (normalized_blank raw E).
  - destruct (normalized_shape raw Ha E) as (_ & Ht & Hs & He & Hr & Hb).
    unfold normalized, title, titlecased in *.
    rewrite (join_split _ Hs He Hr Hb). apply title_of_titlecased; [|exact Ht].
    apply is_ascii_title, is_ascii_join, is_ascii_split, Ha.
Qed.

End NormalCity.

Lemma normalized_idempotent_witness :
  normalized (normalized "  o'neil   st  ") = normalized "  o'neil   st  ".
Proof. apply (normalized_idempotent "  o'neil   st  "). reflexivity. Defined.

(** ** strip *)

Module StripFacts.
Import Str StrFacts.

Lemma lstrip_starts (s : string) : starts_with_space (lstrip s) = false.
Proof.
  induction s as [|c s IH]; [reflexivity|]. cbn [lstrip].
  destruct (isspace c) eqn:E; [exact IH | exact E].
Qed.

Lemma rstrip_starts (s : string) :
  starts_with_space s = false -> starts_with_space (rstrip s) = false.
Proof.
  destruct s as [|c s]; [reflexivity|]. cbn [starts_with_space rstrip]. intros E.
  destruct (rstrip s); [now rewrite E | exact E].
Qed.

Lemma rstrip_ends (s : string) : ends_with_space (rstrip s) = false.
Proof.
  induction s as [|c s IH]; [reflexivity|]. cbn [rstrip].
  destruct (rstrip s) as [|d t] eqn:R.
  - destruct (isspace c) eqn:E; [reflexivity | exact E].
  - exact IH.
Qed.

(** What [strip] returns has no whitespace at either end. *)
Lemma strip_clean (s : string) :
  starts_with_space (strip s) = false /\ ends_with_space (strip s) = false.
Proof.
  unfold strip. split; [apply rstrip_starts, lstrip_starts | apply rstrip_ends].
Qed.

Lemma lstrip_of_clean (s : string) : starts_with_space s = false -> lstrip s = s.
Proof. destruct s as [|c s]; [reflexivity|]. cbn. now intros ->. Qed.

Lemma rstrip_of_clean (s : string) : ends_with_space s = false -> rstrip s = s.
Proof.
  induction s as [|c s IH]; [reflexivity|]. intros E. cbn [rstrip].
  destruct s as [|d s].
  - cbn in *. now rewrite E.
  - rewrite (IH E). reflexivity.
Qed.

Lemma strip_of_clean (s : string) :
  starts_with_space s = false -> ends_with_space s = false -> strip s = s.
Proof.
  intros Hs He. unfold strip. rewrite (lstrip_of_clean s Hs).
  now apply rstrip_of_clean.
Qed.

End StripFacts.

(** ** get_api_key *)

Section ApiKey.
Import Str StrFacts StripFacts.

Lemma get_api_key_reads_environment (w : world) (k : string) :
  environ w = Some k -> all_space k = false ->
  get_api_key w = (Ret (strip k), w).
Proof.
  intros He Hk. unfold get_api_key, getenv_key, mbind, ST_bind, mret, ST_ret.
  rewrite He. rewrite (strip_nonempty k Hk).
  destruct k; [discriminate | reflexivity].
Qed.

(** X2. A key in the environment that is a text of ASCII characters and
    is not blank is returned without its outer whitespace; nothing is
    printed and nothing is read. *)
Theorem get_api_key_environment (w : world) (k : string) :
  environ w = Some k -> is_ascii k = true -> all_space k = false ->
  get_api_key w = (Ret (strip k), w).
Proof.
  intros He _ Hk. unfold get_api_key, getenv_key, mbind, ST_bind, mret, ST_ret.
  rewrite He. rewrite (strip_nonempty k Hk).
  destruct k; [discriminate | reflexivity].
Qed.

Lemma get_api_key_environment_witness :
  get_api_key (World (Some "  secret ") ["typed"] [] (fun _ _ => TransportError "") ∅)
  = (Ret (strip "  secret "),
     World (Some "  secret ") ["typed"] [] (fun _ _ => TransportError "") ∅).
Proof.
  apply (get_api_key_environment
           (World (Some "  secret ") ["typed"] [] (fun _ _ => TransportError "") ∅)
           "  secret ");
    reflexivity.
Defined.

Lemma environment_test (w : world) :
  match environ w with
  | Some k => nonempty k && nonempty (strip k)
  | None => false
  end = negb (no_key_in_environment w).
Proof.
  unfold no_key_in_environment. destruct (environ w) as [k|]; [|reflexivity].
  destruct (all_space k) eqn:E.
  - rewrite (strip_all_space k E). now destruct k.
  - rewrite (strip_nonempty k E). now destruct k.
Qed.

Lemma strip_all_space_iff (s : string) :
  nonempty (strip s) = negb (all_space s).
Proof.
  destruct (all_space s) eqn:E.
  - now rewrite (strip_all_space s E).
  - now rewrite (strip_nonempty s E).
Qed.

(** What [get_api_key] does when the environment gives no key. *)
Lemma get_api_key_asks (w : world) :
  no_key_in_environment w = true ->
  get_api_key w
  = let out := stdout w ++ [ "No OPENWEATHER_API_KEY found in environment." +:+ nl;
                             "Enter your OpenWeatherMap API key: " ] in
    match stdin w with
    | [] => (Raise EOFError, set_stdout out w)
    | l :: rest =>
        if all_space l
        then (Raise (SystemExit 1),
              set_stdout (out ++ ["An API key is required. Exiting." +:+ nl])
                         (set_stdin rest w))
        else (Ret (strip l), set_stdin rest (set_stdout out w))
    end.
Proof.
  intros Hno. unfold get_api_key.
  unfold getenv_key at 1. unfold mbind at 1, ST_bind at 1.
  rewrite environment_test, Hno. cbn [negb].
  unfold print, input, sys_exit, raise, mbind, ST_bind, mret, ST_ret.
  cbn [stdin stdout set_stdout set_stdin environ http fs].
  rewrite <- app_assoc. cbn [app].
  destruct (stdin w) as [|l rest]; [reflexivity|].
  rewrite strip_all_space_iff. destruct (all_space l); cbn [negb].
  - cbn [stdin stdout set_stdout set_stdin environ http fs].
    now rewrite <- app_assoc.
  - reflexivity.
Qed.

(** X3. Whatever the environment and the input, a key that
    [get_api_key] returns is not empty and has no whitespace at either
    end. *)
Theorem get_api_key_clean (w w' : world) (key : string) :
  get_api_key w = (Ret key, w') ->
  nonempty key = true
  /\ starts_with_space key = false /\ ends_with_space key = false.
Proof.
  intros H.
  assert (Hs : exists s, all_space s = false /\ key = strip s).
  { destruct (no_key_in_environment w) eqn:E.
    - rewrite (get_api_key_asks w E) in H. cbv zeta in H.
      destruct (stdin w) as [|l rest]; [discriminate|].
      destruct (all_space l) eqn:El; [discriminate|].
      exists l. split; [exact El | congruence].
    - unfold no_key_in_environment in E.
      destruct (environ w) as [k|] eqn:Ek; [|discriminate].
      rewrite (get_api_key_reads_environment w k Ek E) in H.
      exists k. split; [exact E | congruence]. }
  destruct Hs as (s & Hs & ->).
  split; [now apply strip_nonempty | apply strip_clean].
Qed.

End ApiKey.

Lemma get_api_key_clean_witness :
  Str.nonempty "typed" = true
  /\ Str.starts_with_space "typed" = false /\ Str.ends_with_space "typed" = false.
Proof.
  apply (get_api_key_clean
           (World (Some "  ") [" typed "; "x"] [] (fun _ _ => TransportError "") ∅)
           (World (Some "  ") ["x"]
              [ "No OPENWEATHER_API_KEY found in environment." +:+ Str.nl;
                "Enter your OpenWeatherMap API key: " ]
              (fun _ _ => TransportError "") ∅)
           "typed").
  reflexivity.
Defined.

(** ** prompt_city: what is written and read *)

Section PromptCityMore.
Import Str StrFacts StripFacts.

Lemma prompt_city_loop_dialogue (blanks : list string) (raw : string)
    (rest : list string) :
  Forall (fun l => all_space l = true) blanks ->
  all_space raw = false ->
  prompt_city_loop (blanks ++ raw :: rest)
  = (Ret (normalized (strip raw)), rest, city_dialogue blanks).
Proof.
  intros Hb Hr. induction Hb as [|l blanks Hl Hb IH].
  - cbn. now rewrite (strip_nonempty raw Hr).
  - cbn [app prompt_city_loop]. rewrite (strip_all_space l Hl). cbn [nonempty].
    now rewrite IH.
Qed.

Lemma prompt_city_loop_eof (lines : list string) :
  Forall (fun l => all_space l = true) lines ->
  prompt_city_loop lines = (Raise EOFError, [], city_dialogue lines).
Proof.
  induction 1 as [|l lines Hl Hb IH]; [reflexivity|].
  cbn [prompt_city_loop]. rewrite (strip_all_space l Hl). cbn [nonempty].
  now rewrite IH.
Qed.

(** X4. Each blank line typed is answered by the retry message and a new
    prompt, and the first line that is not blank, a text of ASCII
    characters, ends the dialogue: the output is one prompt and one retry
    message per blank line, then a last prompt, and exactly the lines up
    to that one are consumed. *)
Theorem prompt_city_asks_again (w : world) (blanks : list string) (raw : string)
    (rest : list string) :
  stdin w = blanks ++ raw :: rest ->
  Forall (fun l => all_space l = true) blanks ->
  is_ascii raw = true ->
  all_space raw = false ->
  prompt_city w
  = (Ret (normalized (strip raw)),
     set_stdin rest (set_stdout (stdout w ++ city_dialogue blanks) w)).
Proof.
  intros Hin Hb _ Hr. unfold prompt_city.
  now rewrite Hin, (prompt_city_loop_dialogue blanks raw rest Hb Hr).
Qed.

(** X5. When every line left is blank, [prompt_city] asks once per line
    and once more, consumes all the input and fails with [EOFError]; it
    never returns an empty city. *)
Theorem prompt_city_end_of_input (w : world) :
  Forall (fun l => all_space l = true) (stdin w) ->
  prompt_city w
  = (Raise EOFError,
     set_stdin [] (set_stdout (stdout w ++ city_dialogue (stdin w)) w)).
Proof.
  intros Hb. unfold prompt_city. now rewrite (prompt_city_loop_eof _ Hb).
Qed.

(** X6. A city typed in ASCII characters and in normal form (not empty,
    no whitespace at either end, single spaces between words, title-cased)
    is returned as typed. *)
Theorem prompt_city_keeps_normal (w : world) (city : string) (rest : list string) :
  stdin w = city :: rest ->
  is_ascii city = true ->
  nonempty city = true ->
  starts_with_space city = false -> ends_with_space city = false ->
  has_space_run city = false -> spaces_are_blank city = true ->
  titlecased city = true ->
  prompt_city w
  = (Ret city, set_stdin rest (set_stdout (stdout w ++ [CITY_PROMPT]) w)).
Proof.
  intros Hin Ha Hne Hs He Hr Hb Ht. unfold prompt_city. rewrite Hin.
  cbn [prompt_city_loop]. rewrite (strip_of_clean city Hs He), Hne.
  unfold normalized, title. rewrite (NormalFacts.join_split city Hs He Hr Hb).
  now rewrite (NormalFacts.title_of_titlecased false city Ha Ht).
Qed.

End PromptCityMore.

(** ** fetch_weather: what it leaves alone *)

Section FetchMore.
Context {B : Builtins}.

(** X7. [fetch_weather] changes nothing in the world, and it returns data
    only for status 200: the decoded body, or the empty mapping when the
    body does not decode. *)
Theorem fetch_weather_reads_only (w : world) (city api_key : string) :
  snd (fetch_weather city api_key w) = w
  /\ forall data : pyval,
       fst (fetch_weather city api_key w) = Ret data ->
       exists json, http w city api_key = Response 200 json
                    /\ data = default (PDict ∅) json.
Proof.
  unfold fetch_weather. destruct (http w city api_key) as [text|status json].
  - split; [reflexivity | discriminate].
  - destruct (Z.eqb_spec status 200) as [->|H200].
    + split; [reflexivity|]. intros data [= <-]. eauto.
    + destruct (Z.eqb status 401); [split; [reflexivity | discriminate]|].
      destruct (Z.eqb status 404).
      * split; [reflexivity|]. cbn [fst].
        now destruct (py_get (default (PDict ∅) json) "message" (PStr "City not found.")).
      * split; [reflexivity|]. cbn [fst].
        now destruct (py_get (default (PDict ∅) json) "message" (PStr "Unexpected error")).
Qed.

(** X8. For a request that fails in transport and for a response whose
    body is a mapping or does not decode, [fetch_weather] either returns
    (status 200) or fails with a [ValueError], whatever the status: these
    failures are the ones [main] catches and prints. *)
Theorem fetch_weather_raises_value_errors (w : world) (city api_key : string) :
  match http w city api_key with
  | TransportError _ | Response _ None | Response _ (Some (PDict _)) => True
  | Response _ (Some _) => False
  end ->
  match fst (fetch_weather city api_key w) with
  | Ret _ => exists json, http w city api_key = Response 200 json
  | Raise (ValueError _) => True
  | Raise _ => False
  end.
Proof.
  unfold fetch_weather. destruct (http w city api_key) as [text|status json].
  - intros _. exact I.
  - intros Hbody. destruct (Z.eqb_spec status 200) as [->|H200]; [cbn; eauto|].
    destruct (Z.eqb status 401); [exact I|].
    destruct json as [[| | | | | |body]|]; try contradiction;
      destruct (Z.eqb status 404); exact I.
Qed.

End FetchMore.

Lemma fetch_weather_raises_value_errors_witness :
  match fst (fetch_weather (B := Sample.builtins) "Oslo" "secret"
               (Sample.world_with
                  (Response 500 (Some (PDict (<["message" := PStr "down"]> ∅)))))) with
  | Ret _ =>
      exists json,
        http (Sample.world_with
                (Response 500 (Some (PDict (<["message" := PStr "down"]> ∅)))))
             "Oslo" "secret"
        = Response 200 json
  | Raise (ValueError _) => True
  | Raise _ => False
  end.
Proof.
  apply (fetch_weather_raises_value_errors (B := Sample.builtins)
           (Sample.world_with
              (Response 500 (Some (PDict (<["message" := PStr "down"]> ∅)))))
           "Oslo" "secret").
  exact I.
Defined.

Lemma prompt_city_asks_again_witness :
  prompt_city (World None ["  "; ""; "oslo"; "x"] [] (fun _ _ => TransportError "") ∅)
  = (Ret "Oslo",
     World None ["x"]
       [CITY_PROMPT; CITY_RETRY; CITY_PROMPT; CITY_RETRY; CITY_PROMPT]
       (fun _ _ => TransportError "") ∅).
Proof.
  rewrite (prompt_city_asks_again
             (World None ["  "; ""; "oslo"; "x"] [] (fun _ _ => TransportError "") ∅)
             ["  "; ""] "oslo" ["x"]);
    [reflexivity | reflexivity | repeat constructor | reflexivity | reflexivity].
Defined.

Lemma prompt_city_end_of_input_witness :
  prompt_city (World None ["  "; ""] [] (fun _ _ => TransportError "") ∅)
  = (Raise EOFError,
     World None []
       [CITY_PROMPT; CITY_RETRY; CITY_PROMPT; CITY_RETRY; CITY_PROMPT]
       (fun _ _ => TransportError "") ∅).
Proof.
  rewrite (prompt_city_end_of_input
             (World None ["  "; ""] [] (fun _ _ => TransportError "") ∅));
    [reflexivity | repeat constructor].
Defined.

Lemma prompt_city_keeps_normal_witness :
  prompt_city (World None ["New York"] [] (fun _ _ => TransportError "") ∅)
  = (Ret "New York",
     World None [] [CITY_PROMPT] (fun _ _ => TransportError "") ∅).
Proof.
  rewrite (prompt_city_keeps_normal
             (World None ["New York"] [] (fun _ _ => TransportError "") ∅)
             "New York" []);
    reflexivity.
Defined.

(** ** parse_weather: what every returned row is like *)

Section ParseMore.
Context {B : Builtins}.

Lemma main_get (d : gmap string pyval) (key : string) (v : pyval) :
  py_get (py_or (default PNone (d !! "main")) (PDict ∅)) key PNone = Ret v ->
  v = default PNone (main_field d key).
Proof.
  unfold main_field, py_or.
  destruct (d !! "main") as [[|b|z|f|s|l|m]|]; cbn [default from_option id truthy].
  - cbn. now intros [= <-].
  - destruct b; cbn; [discriminate | now intros [= <-]].
  - destruct (negb (Z.eqb z 0)); cbn; [discriminate | now intros [= <-]].
  - destruct f; cbn; (discriminate || now intros [= <-]).
  - destruct (Str.nonempty s); cbn; [discriminate | now intros [= <-]].
  - destruct l; cbn; [now intros [= <-] | discriminate].
  - destruct (Nat.eqb (size m) 0) eqn:E; cbn [negb py_get].
    + rewrite lookup_empty, (empty_of_size_0 m key E). now intros [= <-].
    + now intros [= <-].
  - cbn. now intros [= <-].
Qed.

Lemma present_of_not_none (o : option pyval) :
  is_none (default PNone o) = false -> exists v, o = Some v /\ is_none v = false.
Proof. destruct o as [v|]; [eauto | discriminate]. Qed.

(** A returned row comes from a mapping with readings under [main] that
    the conversions accept, and it is the row of the five columns. *)
Lemma parse_weather_inv (data : pyval) (row : gmap string pyval) :
  parse_weather data = Ret row ->
  exists (d : gmap string pyval) (temp humidity city country description : pyval)
         (t : spec_float) (h : Z),
    data = PDict d
    /\ main_field d "temp" = Some temp
    /\ main_field d "humidity" = Some humidity
    /\ py_float temp = Ret t
    /\ py_int humidity = Ret h
    /\ row = weather_row city country (PFloat (py_round1 t)) (PInt h) description.
Proof.
  destruct data as [| | | | | |d]; try discriminate.
  unfold parse_weather.
  change (py_get (PDict d) "name" (PStr "Unknown")) with (Ret (city_of d)).
  change (py_get (PDict d) "sys" PNone) with (Ret (default PNone (d !! "sys"))).
  change (py_get (PDict d) "main" PNone) with (Ret (default PNone (d !! "main"))).
  change (py_get (PDict d) "weather" PNone) with (Ret (default PNone (d !! "weather"))).
  cbn [mbind res_bind].
  destruct (py_get (py_or (default PNone (d !! "sys")) (PDict ∅)) "country" (PStr "—"))
    as [country|]; [|discriminate].
  cbn [mbind res_bind].
  destruct (py_get (py_or (default PNone (d !! "main")) (PDict ∅)) "temp" PNone)
    as [temp|] eqn:Et; [|discriminate].
  cbn [mbind res_bind].
  destruct (py_get (py_or (default PNone (d !! "main")) (PDict ∅)) "humidity" PNone)
    as [hum|] eqn:Eh; [|discriminate].
  cbn [mbind res_bind].
  match goal with
  | |- context [mbind _ ?m] =>
      match m with
      | (if _ then _ else _) => destruct m as [description|]; [|discriminate]
      end
  end.
  cbn [mbind res_bind].
  destruct (is_none temp || is_none hum) eqn:En; [discriminate|].
  apply orb_false_elim in En as [Ent Enh].
  apply main_get in Et, Eh. subst temp hum.
  destruct (present_of_not_none _ Ent) as (temp & Htemp & _).
  destruct (present_of_not_none _ Enh) as (hum & Hhum & _).
  rewrite Htemp, Hhum. cbn [default from_option id].
  destruct (py_float temp) as [t|] eqn:Ef; [|discriminate].
  cbn [mbind res_bind].
  destruct (py_int hum) as [h|] eqn:Ei; [|discriminate].
  cbn [mbind res_bind]. intros [= <-].
  exists d, temp, hum, (city_of d), country, (py_or description (PStr "n/a")), t, h.
  repeat split; auto.
Qed.

Lemma weather_row_keys (city country temperature humidity description : pyval) :
  record_keys (weather_row city country temperature humidity description) = true.
Proof. reflexivity. Qed.

Lemma weather_row_lookup (city country temperature humidity description : pyval) :
  let row := weather_row city country temperature humidity description in
  row !! "City" = Some city /\ row !! "Country" = Some country
  /\ row !! "Temperature (C)" = Some temperature
  /\ row !! "Humidity (%)" = Some humidity
  /\ row !! "Description" = Some description.
Proof. repeat split; reflexivity. Qed.

(** X9. Whatever the response, a row that [parse_weather] returns has
    the five columns of the file as its keys and no other, holds a float
    under Temperature (C) and an integer under Humidity (%), and is
    accepted by the writer. *)
Theorem parse_weather_row_schema (data : pyval) (row : gmap string pyval) :
  parse_weather data = Ret row ->
  (forall key : string, is_Some (row !! key) <-> key ∈ CSV_HEADERS)
  /\ (exists (t : spec_float) (h : Z),
        row !! "Temperature (C)" = Some (PFloat t)
        /\ row !! "Humidity (%)" = Some (PInt h))
  /\ record_keys row = true.
Proof.
  intros H. destruct (parse_weather_inv data row H)
    as (d & temp & hum & city & country & desc & t & h & _ & _ & _ & _ & _ & ->).
  split; [|split].
  - intros key. unfold weather_row, CSV_HEADERS.
    rewrite !lookup_insert_is_Some, lookup_empty, is_Some_alt.
    rewrite !elem_of_cons, elem_of_nil. intuition congruence.
  - exists (py_round1 t), h. split; reflexivity.
  - apply weather_row_keys.
Qed.

(** X10. When the humidity of the response is a float, the integer in the
    returned row is that float cut towards zero: it has the sign of the
    reading and its magnitude is the largest integer not above the
    magnitude of the reading. *)
Theorem parse_weather_humidity_floor (d row : gmap string pyval) (f : spec_float) :
  parse_weather (PDict d) = Ret row ->
  main_field d "humidity" = Some (PFloat f) ->
  exists z : Z,
    row !! "Humidity (%)" = Some (PInt z)
    /\ let '(n, den) := float_fraction f in
       (Z.abs z * Zpos den <= Z.abs n < (Z.abs z + 1) * Zpos den)%Z
       /\ (0 <= z * n)%Z.
Proof.
  intros H Hf. destruct (parse_weather_inv _ row H)
    as (d' & temp & hum & city & country & desc & t & h & [= <-] & _ & Hh & _ & Hi & ->).
  rewrite Hf in Hh. injection Hh as <-.
  exists h. split; [reflexivity|].
  assert (Hfin : is_finite f = true).
  { destruct f; try reflexivity; discriminate Hi. }
  cbn [py_int] in Hi. rewrite (trunc_float_truncation f Hfin) in Hi.
  injection Hi as <-. unfold truncation, number_fraction.
  destruct (float_fraction f) as [n den].
  assert (Hpos : forall a : Z, (0 <= a)%Z ->
            (0 <= Z.quot a (Zpos den)
             /\ Z.quot a (Zpos den) * Zpos den <= a
                < (Z.quot a (Zpos den) + 1) * Zpos den)%Z).
  { intros a Ha. pose proof (Z.quot_rem' a (Zpos den)) as Hqr.
    pose proof (Z.rem_bound_pos a (Zpos den) Ha ltac:(lia)).
    pose proof (Z.quot_pos a (Zpos den) Ha ltac:(lia)). nia. }
  destruct (Z.le_gt_cases 0 n) as [Hn | Hn].
  - specialize (Hpos n Hn). destruct Hpos as (Hq & Hlo & Hhi).
    rewrite (Z.abs_eq n Hn), (Z.abs_eq _ Hq). repeat split; [exact Hlo | exact Hhi | nia].
  - specialize (Hpos (- n)%Z ltac:(lia)). destruct Hpos as (Hq & Hlo & Hhi).
    assert (Hz : Z.quot n (Zpos den) = (- Z.quot (- n) (Zpos den))%Z).
    { rewrite Z.quot_opp_l by lia. lia. }
    rewrite Hz, Z.abs_opp, (Z.abs_eq _ Hq), (Z.abs_neq n) by lia.
    repeat split; [exact Hlo | exact Hhi | nia].
Qed.

(** X11. When the temperature of the response is a finite float, the
    float in the returned row is the one nearest to [k / 10], where the
    integer [k] is within one half of ten times the magnitude of the
    reading, and it has the sign of the reading. *)
Theorem parse_weather_temperature_tenth (d row : gmap string pyval)
    (s : bool) (m : positive) (e : Z) :
  parse_weather (PDict d) = Ret row ->
  main_field d "temp" = Some (PFloat (S754_finite s m e)) ->
  exists k : Z,
    row !! "Temperature (C)" = Some (PFloat (float_of_tenths s k))
    /\ (0 <= k)%Z
    /\ let '(n, den) := float_fraction (S754_finite false m e) in
       (2 * Z.abs (10 * n - k * Zpos den) <= Zpos den)%Z.
Proof.
  intros H Hf. destruct (parse_weather_inv _ row H)
    as (d' & temp & hum & city & country & desc & t & h & [= <-] & Ht & _ & Hfl & _ & ->).
  rewrite Hf in Ht. injection Ht as <-. cbn [py_float] in Hfl. injection Hfl as <-.
  destruct (py_round1_nearest_tenth s m e) as (k & Hk & Hpos & Hbound).
  exists k. split; [|split; assumption].
  rewrite <- Hk. reflexivity.
Qed.

End ParseMore.

Lemma parse_weather_row_schema_witness :
  (forall key : string, is_Some (Sample.row_new_york !! key) <-> key ∈ CSV_HEADERS)
  /\ (exists (t : spec_float) (h : Z),
        Sample.row_new_york !! "Temperature (C)" = Some (PFloat t)
        /\ Sample.row_new_york !! "Humidity (%)" = Some (PInt h))
  /\ record_keys Sample.row_new_york = true.
Proof.
  apply (parse_weather_row_schema (B := Sample.builtins) (PDict Sample.new_york)
           Sample.row_new_york).
  vm_compute. reflexivity.
Defined.

Lemma parse_weather_humidity_floor_witness :
  exists z : Z,
    weather_row (PStr "Unknown") (PStr "—") (PFloat (float_of_Z 15)) (PInt 72)
      (PStr "n/a") !! "Humidity (%)" = Some (PInt z)
    /\ let '(n, den) := float_fraction Sample.f72_9 in
       (Z.abs z * Zpos den <= Z.abs n < (Z.abs z + 1) * Zpos den)%Z
       /\ (0 <= z * n)%Z.
Proof.
  apply (parse_weather_humidity_floor (B := Sample.builtins) Sample.readings_only
           (weather_row (PStr "Unknown") (PStr "—") (PFloat (float_of_Z 15)) (PInt 72)
              (PStr "n/a"))
           Sample.f72_9).
  - vm_compute. reflexivity.
  - reflexivity.
Defined.

Lemma parse_weather_temperature_tenth_witness :
  exists k : Z,
    Sample.row_new_york !! "Temperature (C)" = Some (PFloat (float_of_tenths false k))
    /\ (0 <= k)%Z
    /\ let '(n, den) :=
         float_fraction (S754_finite false 8635652285482926 (-49)) in
       (2 * Z.abs (10 * n - k * Zpos den) <= Zpos den)%Z.
Proof.
  apply (parse_weather_temperature_tenth (B := Sample.builtins) Sample.new_york
           Sample.row_new_york false 8635652285482926 (-49)).
  - vm_compute. reflexivity.
  - reflexivity.
Defined.

(** ** print_summary *)

Section Summary.
Context {B : Builtins}.

(** X12. On a row that has the five columns [print_summary] prints the
    summary in one piece and returns; on a row that lacks one of them it
    fails with [KeyError] and prints nothing. *)
Theorem print_summary_needs_columns (row : gmap string pyval) (w : world) :
  (forall city country description temp humidity : pyval,
     row !! "City" = Some city -> row !! "Country" = Some country ->
     row !! "Description" = Some description ->
     row !! "Temperature (C)" = Some temp ->
     row !! "Humidity (%)" = Some humidity ->
     print_summary row w
     = (Ret tt,
        set_stdout
          (stdout w
           ++ [summary_text city country description temp humidity +:+ Str.nl])
          w))
  /\ (forall key : string,
        key ∈ CSV_HEADERS -> row !! key = None ->
        print_summary row w = (Raise KeyError, w)).
Proof.
  unfold print_summary, lift, getitem, mbind, ST_bind. split.
  - intros city country description temp humidity -> -> -> -> ->. reflexivity.
  - intros key Hkey Hnone. unfold CSV_HEADERS in Hkey.
    rewrite !elem_of_cons, elem_of_nil in Hkey.
    destruct (row !! "City") eqn:E1; [|reflexivity].
    destruct (row !! "Country") eqn:E2; [|reflexivity].
    destruct (row !! "Description") eqn:E3; [|reflexivity].
    destruct (row !! "Temperature (C)") eqn:E4; [|reflexivity].
    destruct (row !! "Humidity (%)") eqn:E5; [|reflexivity].
    destruct Hkey as [->|[->|[->|[->|[->|[]]]]]]; congruence.
Qed.

Lemma print_summary_row (row : gmap string pyval) (data : pyval) (w : world) :
  parse_weather data = Ret row ->
  print_summary row w
  = (Ret tt, set_stdout (stdout w ++ [summary_of_row row +:+ Str.nl]) w).
Proof.
  intros H. destruct (parse_weather_inv data row H)
    as (d & temp & hum & city & country & desc & t & h & _ & _ & _ & _ & _ & ->).
  reflexivity.
Qed.

End Summary.

Lemma print_summary_needs_columns_witness :
  print_summary (B := Sample.builtins) (delete "Country" Sample.row_paris)
    Sample.empty_world
  = (Raise KeyError, Sample.empty_world).
Proof.
  apply (proj2 (print_summary_needs_columns (B := Sample.builtins)
                  (delete "Country" Sample.row_paris) Sample.empty_world)
           "Country").
  - unfold CSV_HEADERS. rewrite !elem_of_cons. auto.
  - reflexivity.
Defined.

(** ** write_row_to_csv: what it leaves alone *)

Section WriteMore.
Context {B : Builtins}.

Lemma write_row_to_csv_unfold (row : gmap string pyval) (p : Path) (w : world) :
  write_row_to_csv row p w
  = with_open_append p
      ((if write_header_needed p w then writeheader CSV_HEADERS else mret tt);;
       writerow CSV_HEADERS row) w.
Proof.
  unfold write_row_to_csv, write_header_needed.
  destruct (fs w !! p) as [content|] eqn:E.
  - rewrite (bind_ret _ _ w w true) by (unfold path_exists; now rewrite E).
    rewrite (bind_ret _ _ w w (Nat.eqb (String.length content) 0))
      by (unfold st_size, mbind, ST_bind, mret, ST_ret; now rewrite E).
    reflexivity.
  - rewrite (bind_ret _ _ w w false) by (unfold path_exists; now rewrite E).
    rewrite (bind_ret _ _ w w true) by reflexivity.
    reflexivity.
Qed.

Lemma wrong_fields_of_keys (row : gmap string pyval) :
  record_keys row = false -> wrong_fields row <> [].
Proof.
  unfold record_keys, wrong_fields.
  induction (map fst (map_to_list row)) as [|k l IH]; [discriminate|].
  cbn. destruct (bool_decide (k ∈ CSV_HEADERS)); cbn; [exact IH | discriminate].
Qed.

Lemma writerow_refused (row : gmap string pyval) (buf : string) :
  record_keys row = false ->
  writerow CSV_HEADERS row buf
  = (Raise (ValueError (extras_message (wrong_fields row))), buf).
Proof.
  intros H. apply wrong_fields_of_keys in H.
  unfold writerow, lift, mbind, ST_bind, dict_to_list. fold (wrong_fields row).
  now destruct (wrong_fields row).
Qed.

(** X13. A row with a key that is not a column is refused with a
    [ValueError]: no line of data is written; a file that has content is
    left as it is, and a file that is absent or empty is left holding the
    header line alone. *)
Theorem write_row_to_csv_refuses (row : gmap string pyval) (p : Path) (w : world) :
  record_keys row = false ->
  write_row_to_csv row p w
  = (Raise (ValueError (extras_message (wrong_fields row))),
     set_fs (<[p := if write_header_needed p w then header_line
                    else default "" (fs w !! p)]> (fs w)) w).
Proof.
  intros H. rewrite write_row_to_csv_unfold. unfold with_open_append.
  unfold write_header_needed. destruct (fs w !! p) as [content|] eqn:E.
  - destruct (Nat.eqb (String.length content) 0) eqn:El.
    + unfold mbind, ST_bind. rewrite (writeheader_line "").
      rewrite (writerow_refused row _ H).
      destruct content; [reflexivity | discriminate].
    + unfold mbind, ST_bind, mret, ST_ret. rewrite (writerow_refused row _ H).
      cbn. now rewrite append_empty_r.
  - unfold mbind, ST_bind. rewrite (writeheader_line "").
    now rewrite (writerow_refused row _ H).
Qed.

(** X14. Whatever the row and whether the call succeeds or not,
    [write_row_to_csv] only appends to the file at its path: what the file
    held stays as a prefix, every other file is untouched, and nothing is
    written to or read from the console. *)
Theorem write_row_to_csv_appends_only (row : gmap string pyval) (p : Path)
    (w : world) :
  let w' := snd (write_row_to_csv row p w) in
  (exists suffix : string,
     fs w' !! p = Some (default "" (fs w !! p) +:+ suffix))
  /\ (forall q : Path, q <> p -> fs w' !! q = fs w !! q)
  /\ stdout w' = stdout w /\ stdin w' = stdin w.
Proof.
  cbv zeta. rewrite write_row_to_csv_unfold. unfold with_open_append.
  destruct ((_ ;; writerow CSV_HEADERS row) "") as [r written].
  cbn [snd set_fs fs stdout stdin]. repeat split.
  - exists written. apply lookup_insert_eq.
  - intros q Hq. apply lookup_insert_ne. congruence.
Qed.

End WriteMore.

Lemma write_row_to_csv_refuses_witness :
  write_row_to_csv (B := Sample.builtins) (<["Wind" := PInt 3]> Sample.row_paris)
    CSV_FILE (Sample.world_with_file "kept")
  = (Raise (ValueError (extras_message (Builtins := Sample.builtins) ["Wind"])),
     Sample.world_with_file "kept").
Proof.
  rewrite (write_row_to_csv_refuses (B := Sample.builtins)
             (<["Wind" := PInt 3]> Sample.row_paris) CSV_FILE
             (Sample.world_with_file "kept"));
    reflexivity.
Defined.

(** ** read_and_report: what it leaves alone, and what it reads back *)

Section ReportMore.
Context {B : Builtins}.

Lemma read_and_report_absent (p : Path) (w : world) :
  fs w !! p = None \/ fs w !! p = Some "" ->
  read_and_report p w
  = (Ret tt, set_stdout (stdout w ++ [NOTHING_TO_REPORT +:+ Str.nl]) w).
Proof.
  intros Hf.
  unfold read_and_report, path_exists, st_size, mbind, ST_bind, mret, ST_ret.
  destruct Hf as [Hf | Hf]; repeat (rewrite Hf; simpl); reflexivity.
Qed.

Lemma read_and_report_same_files (p : Path) (w : world) :
  fs (snd (read_and_report p w)) = fs w.
Proof.
  destruct (fs w !! p) as [text|] eqn:E.
  - destruct (decide (text = "")) as [->|Hne].
    + now rewrite (read_and_report_absent p w (or_intror E)).
    + rewrite (read_and_report_rows p w text E Hne).
      now destruct (dict_reader_rows text) as [[|r rows]|e].
  - now rewrite (read_and_report_absent p w (or_introl E)).
Qed.

(** X15. Whatever the file holds and however the report ends,
    [read_and_report] changes no file and reads no input; it only adds to
    what was printed. *)
Theorem read_and_report_reads_only (p : Path) (w : world) :
  let w' := snd (read_and_report p w) in
  fs w' = fs w /\ stdin w' = stdin w
  /\ exists out : list string, stdout w' = stdout w ++ out.
Proof.
  cbv zeta.
  destruct (fs w !! p) as [text|] eqn:E.
  - destruct (decide (text = "")) as [->|Hne].
    + rewrite (read_and_report_absent p w (or_intror E)). cbn. eauto.
    + rewrite (read_and_report_rows p w text E Hne).
      destruct (dict_reader_rows text) as [[|r rows]|e]; cbn.
      * eauto.
      * eauto.
      * repeat split; auto. exists []. now rewrite app_nil_r.
  - rewrite (read_and_report_absent p w (or_introl E)). cbn. eauto.
Qed.

(** The file of a header and rows, as records. *)
Lemma written_text_records (rows : list (gmap string pyval)) :
  header_line +:+ row_lines rows
  = CsvStream.format_records (CSV_HEADERS :: map row_cells rows).
Proof.
  cbn [CsvStream.format_records]. f_equal.
  induction rows as [|r rows IH]; [reflexivity|].
  cbn [row_lines map CsvStream.format_records]. now rewrite IH.
Qed.

Lemma header_fits : Forall (fun f => CsvStream.field_fits f = true) CSV_HEADERS.
Proof. repeat constructor. Qed.

Lemma rows_fit (rows : list (gmap string pyval)) :
  Forall (fun r => row_fits r = true) rows ->
  Forall (Forall (fun f => CsvStream.field_fits f = true)) (map row_cells rows).
Proof.
  induction 1 as [|r rows Hr _ IH]; [constructor|].
  cbn [map]. constructor; [|exact IH].
  unfold row_fits in Hr. rewrite forallb_forall in Hr.
  apply List.Forall_forall. exact Hr.
Qed.

Lemma data_rows_cells (rows : list (gmap string pyval)) :
  data_rows (map row_cells rows) = map row_cells rows.
Proof.
  induction rows as [|r rows IH]; [reflexivity|].
  cbn [map]. unfold data_rows in *. cbn. now rewrite IH.
Qed.

Lemma entry_line_reported (row : gmap string pyval) :
  report_line (reader_row CSV_HEADERS (row_cells row)) +:+ Str.nl = entry_line row.
Proof.
  rewrite report_line_text, !append_assoc. reflexivity.
Qed.

Lemma entry_lines_reported (rows : list (gmap string pyval)) :
  map (fun r => report_line r +:+ Str.nl)
      (map (reader_row CSV_HEADERS) (map row_cells rows))
  = map entry_line rows.
Proof.
  induction rows as [|r rows IH]; [reflexivity|].
  cbn [map]. now rewrite IH, entry_line_reported.
Qed.

(** The report on a file that holds the header and the lines of rows. *)
Lemma report_of_written (p : Path) (w : world) (row : gmap string pyval)
    (rows : list (gmap string pyval)) :
  fs w !! p = Some (header_line +:+ row_lines (row :: rows)) ->
  Forall (fun r => row_fits r = true) (row :: rows) ->
  read_and_report p w
  = (Ret tt,
     set_stdout
       (stdout w
        ++ ("Entries in " +:+ path_name p +:+ ": "
            +:+ pretty (length (row :: rows)) +:+ Str.nl)
        :: map entry_line (row :: rows))
       w).
Proof.
  intros Hf Hfit.
  rewrite (read_and_report_rows p w _ Hf (header_line_nonempty _)).
  unfold dict_reader_rows. rewrite written_text_records.
  rewrite CsvFacts.records_round_trip by (constructor; [apply header_fits | now apply rows_fit]).
  cbn [mbind res_bind]. fold (data_rows (map row_cells (row :: rows))).
  rewrite data_rows_cells. cbn [map length].
  now rewrite !length_map, entry_line_reported, entry_lines_reported.
Qed.

(** X16. Rows written to a file that was absent or empty are read back
    by the report: after one row or more, each with keys among the columns
    and cells within the limit of the reader, [read_and_report] prints the
    number of rows written and, in the order written, one line per row
    with the texts written for its city and its temperature. *)
Theorem written_rows_are_reported (p : Path) (w : world)
    (row : gmap string pyval) (rows : list (gmap string pyval)) :
  fs w !! p = None \/ fs w !! p = Some "" ->
  Forall (fun r => record_keys r = true) (row :: rows) ->
  Forall (fun r => row_fits r = true) (row :: rows) ->
  (write_rows (row :: rows) p;; read_and_report p) w
  = (Ret tt,
     set_stdout
       (stdout w
        ++ ("Entries in " +:+ path_name p +:+ ": "
            +:+ pretty (length (row :: rows)) +:+ Str.nl)
        :: map entry_line (row :: rows))
       (set_fs (<[p := header_line +:+ row_lines (row :: rows)]> (fs w)) w)).
Proof.
  intros Hf Hkeys Hfit.
  assert (Hw : write_rows (row :: rows) p w
               = (Ret tt,
                  set_fs (<[p := header_line +:+ row_lines (row :: rows)]> (fs w)) w)).
  { inversion Hkeys as [|? ? Hr Hrest]; subst. cbn [write_rows].
    rewrite (bind_ret _ _ _ _ _ (write_row_to_csv_fresh row p w Hf Hr)).
    rewrite (write_rows_append rows p _ (header_line +:+ row_line row)).
    - cbn [fs set_fs]. rewrite set_fs_set_fs, insert_insert_eq, append_assoc. reflexivity.
    - cbn [fs set_fs]. apply lookup_insert_eq.
    - apply header_line_nonempty.
    - exact Hrest. }
  rewrite (bind_ret _ _ _ _ _ Hw).
  rewrite (report_of_written p _ row rows); [reflexivity | | exact Hfit].
  cbn [fs set_fs]. apply lookup_insert_eq.
Qed.

End ReportMore.

Lemma written_rows_are_reported_witness :
  (write_rows (B := Sample.builtins) [Sample.row_new_york; Sample.row_paris] CSV_FILE;;
   read_and_report (B := Sample.builtins) CSV_FILE) Sample.empty_world
  = (Ret tt,
     World None []
       [ "Entries in city_data.csv: 2" +:+ Str.nl;
         " - New York: 15.3°C" +:+ Str.nl;
         " - Paris: 15.3°C" +:+ Str.nl ]
       (fun _ _ => TransportError "")
       (<[CSV_FILE := header_line
                      +:+ row_lines (B := Sample.builtins)
                            [Sample.row_new_york; Sample.row_paris]]> ∅)).
Proof.
  rewrite (written_rows_are_reported (B := Sample.builtins) CSV_FILE
             Sample.empty_world Sample.row_new_york [Sample.row_paris]).
  - reflexivity.
  - left. reflexivity.
  - repeat constructor.
  - repeat constructor.
Defined.

(** ** main: how the steps compose *)

Section MainMore.
Context {B : Builtins}.
Import Str.

Lemma fetch_weather_same_world (w : world) (city api_key : string) :
  snd (fetch_weather city api_key w) = w.
Proof.
  unfold fetch_weather. destruct (http w city api_key) as [text|status json];
    [reflexivity|].
  destruct (Z.eqb status 200), (Z.eqb status 401), (Z.eqb status 404); reflexivity.
Qed.

(** X17. With no key in the environment and a blank line typed for it,
    [main] prints the notice, the prompt and "An API key is required.
    Exiting.", and exits with status 1: no city is asked for, and no file
    is touched. *)
Theorem main_stops_without_key (w : world) (line : string) (rest : list string) :
  no_key_in_environment w = true ->
  stdin w = line :: rest ->
  all_space line = true ->
  main w
  = (Raise (SystemExit 1),
     set_stdout
       (stdout w
        ++ [ "No OPENWEATHER_API_KEY found in environment." +:+ nl;
             "Enter your OpenWeatherMap API key: ";
             "An API key is required. Exiting." +:+ nl ])
       (set_stdin rest w))
  /\ exit_status (fst (main w)) = 1%Z.
Proof.
  intros Hno Hin Hblank.
  assert (H : main w
     = (Raise (SystemExit 1),
        set_stdout
          (stdout w
           ++ [ "No OPENWEATHER_API_KEY found in environment." +:+ nl;
                "Enter your OpenWeatherMap API key: ";
                "An API key is required. Exiting." +:+ nl ])
          (set_stdin rest w))).
  { unfold main. apply bind_raise. rewrite (get_api_key_asks w Hno). cbv zeta.
    rewrite Hin, Hblank. now rewrite <- app_assoc. }
  now rewrite H.
Qed.

(** X18. Once the key and the city are obtained, a failure of
    [fetch_weather] or of [parse_weather] ends the run before anything is
    written: a [ValueError] is printed after "Error: " and the exit status
    is 1, any other exception is passed on as it is, and in both cases
    every file is as it was. *)
Theorem main_failure_writes_nothing (w w1 w2 : world) (api_key city : string)
    (e : exn) :
  get_api_key w = (Ret api_key, w1) ->
  prompt_city w1 = (Ret city, w2) ->
  fst (fetch_weather city api_key w2) = Raise e
  \/ (exists data : pyval,
        fst (fetch_weather city api_key w2) = Ret data
        /\ parse_weather data = Raise e) ->
  main w
  = match e with
    | ValueError msg =>
        (Raise (SystemExit 1),
         set_stdout (stdout w2 ++ [("Error: " +:+ msg) +:+ nl]) w2)
    | _ => (Raise e, w2)
    end
  /\ fs (snd (main w)) = fs w.
Proof.
  intros Hkey Hcity Hfail.
  assert (Hbody : (raw_data ← fetch_weather city api_key;
                   lift (parse_weather raw_data)) w2 = (Raise e, w2)).
  { pose proof (fetch_weather_same_world w2 city api_key) as Hw.
    destruct (fetch_weather city api_key w2) as [r w'] eqn:Ef. cbn in Hw. subst w'.
    destruct Hfail as [Hr | (data & Hr & Hp)]; cbn in Hr; subst r.
    - now apply bind_raise.
    - rewrite (bind_ret _ _ _ _ _ Ef). unfold lift. now rewrite Hp. }
  assert (Hmain : main w
    = match e with
      | ValueError msg =>
          (Raise (SystemExit 1),
           set_stdout (stdout w2 ++ [("Error: " +:+ msg) +:+ nl]) w2)
      | _ => (Raise e, w2)
      end).
  { unfold main.
    rewrite (bind_ret _ _ _ _ _ Hkey), (bind_ret _ _ _ _ _ Hcity).
    unfold mbind at 1, ST_bind at 1, try_except_ValueError. rewrite Hbody.
    destruct e; reflexivity. }
  split; [exact Hmain|]. rewrite Hmain.
  pose proof (get_api_key_fs w) as H1. pose proof (prompt_city_fs w1) as H2.
  rewrite Hkey in H1. rewrite Hcity in H2. cbn in H1, H2.
  destruct e; cbn; congruence.
Qed.

Lemma write_row_to_csv_record (row : gmap string pyval) (p : Path) (w : world) :
  record_keys row = true ->
  write_row_to_csv row p w
  = (Ret tt,
     set_fs (<[p := default "" (fs w !! p)
                    +:+ (if write_header_needed p w then header_line else "")
                    +:+ row_line row]> (fs w)) w).
Proof.
  intros Hr. unfold write_header_needed.
  destruct (fs w !! p) as [content|] eqn:E.
  - destruct content as [|c content].
    + now rewrite (write_row_to_csv_fresh row p w (or_intror E) Hr).
    + now rewrite (write_row_to_csv_append row p w _ E ltac:(discriminate) Hr).
  - now rewrite (write_row_to_csv_fresh row p w (or_introl E) Hr).
Qed.

Lemma main_runs_report (w w1 w2 : world) (api_key city : string) (data : pyval)
    (row : gmap string pyval) :
  get_api_key w = (Ret api_key, w1) ->
  prompt_city w1 = (Ret city, w2) ->
  fst (fetch_weather city api_key w2) = Ret data ->
  parse_weather data = Ret row ->
  main w = read_and_report CSV_FILE (after_write row w2).
Proof.
  intros Hkey Hcity Hfetch Hparse.
  pose proof (fetch_weather_same_world w2 city api_key) as Hw.
  destruct (fetch_weather city api_key w2) as [r w'] eqn:Ef. cbn in Hw, Hfetch.
  subst w' r.
  assert (Hbody : (raw_data ← fetch_weather city api_key;
                   lift (parse_weather raw_data)) w2 = (Ret row, w2)).
  { rewrite (bind_ret _ _ _ _ _ Ef). unfold lift. now rewrite Hparse. }
  assert (Hkeys : record_keys row = true).
  { destruct (parse_weather_inv data row Hparse)
      as (d & temp & hum & c & co & desc & t & h & _ & _ & _ & _ & _ & ->).
    apply weather_row_keys. }
  unfold main.
  rewrite (bind_ret _ _ _ _ _ Hkey), (bind_ret _ _ _ _ _ Hcity).
  rewrite (bind_ret _ _ w2 w2 row)
    by (unfold try_except_ValueError; now rewrite Hbody).
  rewrite (bind_ret _ _ _ _ _ (print_summary_row row data w2 Hparse)).
  rewrite (bind_ret _ _ _ _ _ (write_row_to_csv_record row CSV_FILE _ Hkeys)).
  reflexivity.
Qed.

(** X19. When the key and the city are obtained, the service answers
    with data and [parse_weather] returns a row, [main] prints the summary
    of the row, appends the line of the row to the file (after the header
    line when the file was absent or empty, leaving what the file held in
    place) and ends as the report on that file ends. *)
Theorem main_writes_then_reports (w w1 w2 : world) (api_key city : string)
    (data : pyval) (row : gmap string pyval) :
  get_api_key w = (Ret api_key, w1) ->
  prompt_city w1 = (Ret city, w2) ->
  fst (fetch_weather city api_key w2) = Ret data ->
  parse_weather data = Ret row ->
  main w = read_and_report CSV_FILE (after_write row w2)
  /\ fs (snd (main w)) !! CSV_FILE
     = Some (default "" (fs w2 !! CSV_FILE)
             +:+ (if write_header_needed CSV_FILE w2 then header_line else "")
             +:+ row_line row).
Proof.
  intros Hkey Hcity Hfetch Hparse.
  pose proof (main_runs_report w w1 w2 api_key city data row Hkey Hcity Hfetch Hparse)
    as Hmain.
  split; [exact Hmain|]. rewrite Hmain.
  rewrite read_and_report_same_files. unfold after_write. cbn [fs set_fs set_stdout].
  apply lookup_insert_eq.
Qed.

(** X20. A first run: when the file is absent or empty and the cells of
    the row are within the limit of the reader, [main] prints the summary,
    then "Entries in city_data.csv: 1" and the line of the row, leaves the
    file holding the header line and the line of the row, and ends with
    exit status 0. *)
Theorem main_first_run (w w1 w2 : world) (api_key city : string)
    (data : pyval) (row : gmap string pyval) :
  get_api_key w = (Ret api_key, w1) ->
  prompt_city w1 = (Ret city, w2) ->
  fst (fetch_weather city api_key w2) = Ret data ->
  parse_weather data = Ret row ->
  fs w2 !! CSV_FILE = None \/ fs w2 !! CSV_FILE = Some "" ->
  row_fits row = true ->
  main w
  = (Ret tt,
     set_stdout
       (stdout w2
        ++ [ summary_of_row row +:+ nl;
             "Entries in city_data.csv: 1" +:+ nl;
             entry_line row ])
       (set_fs (<[CSV_FILE := header_line +:+ row_line row]> (fs w2)) w2))
  /\ exit_status (fst (main w)) = 0%Z.
Proof.
  intros Hkey Hcity Hfetch Hparse Hfile Hfit.
  assert (Hmain : main w
    = (Ret tt,
       set_stdout
         (stdout w2
          ++ [ summary_of_row row +:+ nl;
               "Entries in city_data.csv: 1" +:+ nl;
               entry_line row ])
         (set_fs (<[CSV_FILE := header_line +:+ row_line row]> (fs w2)) w2))).
  { rewrite (main_runs_report w w1 w2 api_key city data row Hkey Hcity Hfetch Hparse).
    assert (Hafter : after_write row w2
              = set_fs (<[CSV_FILE := header_line +:+ row_lines [row]]> (fs w2))
                       (set_stdout (stdout w2 ++ [summary_of_row row +:+ nl]) w2)).
    { unfold after_write, write_header_needed.
      cbn [row_lines]. rewrite append_empty_r.
      destruct Hfile as [-> | ->]; reflexivity. }
    rewrite Hafter.
    rewrite (report_of_written CSV_FILE _ row []).
    - cbn [row_lines map length set_fs set_stdout stdout fs stdin environ http].
      rewrite append_empty_r, <- app_assoc. reflexivity.
    - cbn [fs set_fs set_stdout]. apply lookup_insert_eq.
    - now constructor. }
  now rewrite Hmain.
Qed.

End MainMore.

Lemma main_stops_without_key_witness :
  main (B := Sample.builtins)
    (World (Some "  ") [""; "oslo"] [] (fun _ _ => TransportError "") ∅)
  = (Raise (SystemExit 1),
     World (Some "  ") ["oslo"]
       [ "No OPENWEATHER_API_KEY found in environment." +:+ Str.nl;
         "Enter your OpenWeatherMap API key: ";
         "An API key is required. Exiting." +:+ Str.nl ]
       (fun _ _ => TransportError "") ∅)
  /\ exit_status
       (fst (main (B := Sample.builtins)
               (World (Some "  ") [""; "oslo"] [] (fun _ _ => TransportError "") ∅)))
     = 1%Z.
Proof.
  apply (main_stops_without_key (B := Sample.builtins)
           (World (Some "  ") [""; "oslo"] [] (fun _ _ => TransportError "") ∅)
           "" ["oslo"]);
    reflexivity.
Defined.

Lemma main_failure_writes_nothing_witness :
  main (B := Sample.builtins) (Sample.world_with (Response 401 None))
  = (Raise (SystemExit 1),
     World None []
       [ "No OPENWEATHER_API_KEY found in environment." +:+ Str.nl;
         "Enter your OpenWeatherMap API key: ";
         "Enter a city name: ";
         ("Error: " +:+ "Unauthorized (401): Invalid or missing API key.") +:+ Str.nl ]
       (fun _ _ => Response 401 None) ∅)
  /\ fs (snd (main (B := Sample.builtins) (Sample.world_with (Response 401 None))))
     = ∅.
Proof.
  apply (main_failure_writes_nothing (B := Sample.builtins)
           (Sample.world_with (Response 401 None))
           (World None ["  new   york"]
              [ "No OPENWEATHER_API_KEY found in environment." +:+ Str.nl;
                "Enter your OpenWeatherMap API key: " ]
              (fun _ _ => Response 401 None) ∅)
           (World None []
              [ "No OPENWEATHER_API_KEY found in environment." +:+ Str.nl;
                "Enter your OpenWeatherMap API key: ";
                "Enter a city name: " ]
              (fun _ _ => Response 401 None) ∅)
           "secret" "New York"
           (ValueError "Unauthorized (401): Invalid or missing API key."));
    [reflexivity | reflexivity | left; reflexivity].
Defined.

Lemma main_writes_then_reports_witness :
  main (B := Sample.builtins)
    (Sample.world_with (Response 200 (Some (PDict Sample.new_york))))
  = read_and_report (B := Sample.builtins) CSV_FILE
      (after_write (B := Sample.builtins) Sample.row_new_york
         (World None []
            [ "No OPENWEATHER_API_KEY found in environment." +:+ Str.nl;
              "Enter your OpenWeatherMap API key: ";
              "Enter a city name: " ]
            (fun _ _ => Response 200 (Some (PDict Sample.new_york))) ∅))
  /\ fs (snd (main (B := Sample.builtins)
                (Sample.world_with (Response 200 (Some (PDict Sample.new_york))))))
       !! CSV_FILE
     = Some (header_line +:+ row_line (B := Sample.builtins) Sample.row_new_york).
Proof.
  destruct (main_writes_then_reports (B := Sample.builtins)
           (Sample.world_with (Response 200 (Some (PDict Sample.new_york))))
           (World None ["  new   york"]
              [ "No OPENWEATHER_API_KEY found in environment." +:+ Str.nl;
                "Enter your OpenWeatherMap API key: " ]
              (fun _ _ => Response 200 (Some (PDict Sample.new_york))) ∅)
           (World None []
              [ "No OPENWEATHER_API_KEY found in environment." +:+ Str.nl;
                "Enter your OpenWeatherMap API key: ";
                "Enter a city name: " ]
              (fun _ _ => Response 200 (Some (PDict Sample.new_york))) ∅)
           "secret" "New York" (PDict Sample.new_york) Sample.row_new_york)
    as [Hmain Hfile]; try (vm_compute; reflexivity).
  split; [exact Hmain|]. rewrite Hfile. reflexivity.
Defined.

Lemma main_first_run_witness :
  main (B := Sample.builtins)
    (Sample.world_with (Response 200 (Some (PDict Sample.new_york))))
  = (Ret tt,
     World None []
       [ "No OPENWEATHER_API_KEY found in environment." +:+ Str.nl;
         "Enter your OpenWeatherMap API key: ";
         "Enter a city name: ";
         summary_of_row (B := Sample.builtins) Sample.row_new_york +:+ Str.nl;
         "Entries in city_data.csv: 1" +:+ Str.nl;
         entry_line (B := Sample.builtins) Sample.row_new_york ]
       (fun _ _ => Response 200 (Some (PDict Sample.new_york)))
       (<[CSV_FILE := header_line
                      +:+ row_line (B := Sample.builtins) Sample.row_new_york]> ∅))
  /\ exit_status
       (fst (main (B := Sample.builtins)
               (Sample.world_with (Response 200 (Some (PDict Sample.new_york))))))
     = 0%Z.
Proof.
  apply (main_first_run (B := Sample.builtins)
           (Sample.world_with (Response 200 (Some (PDict Sample.new_york))))
           (World None ["  new   york"]
              [ "No OPENWEATHER_API_KEY found in environment." +:+ Str.nl;
                "Enter your OpenWeatherMap API key: " ]
              (fun _ _ => Response 200 (Some (PDict Sample.new_york))) ∅)
           (World None []
              [ "No OPENWEATHER_API_KEY found in environment." +:+ Str.nl;
                "Enter your OpenWeatherMap API key: ";
                "Enter a city name: " ]
              (fun _ _ => Response 200 (Some (PDict Sample.new_york))) ∅)
           "secret" "New York" (PDict Sample.new_york) Sample.row_new_york);
    try (vm_compute; reflexivity).
  left. reflexivity.
Defined.
